(** * StravaTalk: the turn controller and the history renderer

    A shallow embedding of [src/stravatalk/app.py], the Streamlit chat
    interface of StravaTalk: [handle_query], which processes one user
    turn, and the loop of [create_interface] that replays the stored
    chat history.

    The session state of Streamlit is an explicit record.  A Python block
    is a function from the session to a run: how the block ended
    (normally or by an exception), the session it left, and the calls it
    made to Streamlit and to its collaborators, in order.  A block that
    raises keeps the effects it had before the raise.

    The pipeline, the chart validator, the chart builder and the display
    are outside the file: they are parameters of the development, each
    free to return or to raise.  The display calls of Streamlit and of
    the debug helpers are taken not to raise, and an exception is an
    instance of Python's [Exception]. *)

From Stdlib Require Import String Ascii List ZArith Bool Arith DecimalString.
From ExtLib Require Import Structures.Monad Structures.MonadExc.
Import ListNotations.
Import MonadNotation.
Local Open Scope string_scope.
Local Open Scope monad_scope.

(** ** Python strings *)

Module Str.

(** [c.lower()] on the ASCII range. *)
Definition lower_ascii (c : ascii) : ascii :=
  let n := nat_of_ascii c in
  if ((65 <=? n) && (n <=? 90))%nat then ascii_of_nat (n + 32) else c.

(** [s.lower()] *)
Fixpoint lower (s : string) : string :=
  match s with
  | EmptyString => EmptyString
  | String c s' => String (lower_ascii c) (lower s')
  end.

(** [needle in hay] *)
Fixpoint contains (needle hay : string) : bool :=
  String.prefix needle hay
  || match hay with
     | EmptyString => false
     | String _ hay' => contains needle hay'
     end.

(** [str(n)] for a non-negative integer. *)
Definition of_nat (n : nat) : string := NilZero.string_of_uint (Nat.to_uint n).

(** Truthiness of an optional string: [None] and the empty string are falsy. *)
Definition truthy (s : option string) : bool :=
  match s with
  | Some s => negb (s =? EmptyString)
  | None => false
  end.

End Str.

(** ** Tables (pandas) *)

(** A scalar of a table.  [CTime] is the temporal type [pd.to_datetime]
    produces. *)
Inductive Cell : Type :=
| CNull
| CInt (z : Z)
| CStr (s : string)
| CTime (t : Z).

(** One element of [DataFrame.to_dict("records")]: column name to scalar,
    in column order. *)
Definition Record_ : Type := list (string * Cell).

(** A [pd.DataFrame]: named columns and rows. *)
Record DataFrame : Type := {
  columns : list string;
  rows : list (list Cell)
}.

(** Python exceptions deriving from [Exception]; [str(e)] is [exn_msg]. *)
Inductive exn : Type := Exception (msg : string).

Definition exn_msg (e : exn) : string := let 'Exception m := e in m.

(** The outcome of a Python call. *)
Inductive Outcome (A : Type) : Type :=
| Ret (a : A)
| Raise (e : exn).
Arguments Ret {A} a.
Arguments Raise {A} e.

Module Frame.

(** [df.empty]: some axis has length zero. *)
Definition empty (df : DataFrame) : bool :=
  ((length (columns df) =? 0) || (length (rows df) =? 0))%nat.

(** [len(df)] *)
Definition len (df : DataFrame) : nat := length (rows df).

(** [df.to_dict("records")] *)
Definition to_dict_records (df : DataFrame) : list Record_ :=
  map (fun r => combine (columns df) r) (rows df).

Fixpoint lookup (k : string) (r : Record_) : option Cell :=
  match r with
  | [] => None
  | (k', v) :: r' => if k =? k' then Some v else lookup k r'
  end.

Definition mem (k : string) (ks : list string) : bool :=
  existsb (String.eqb k) ks.

(** Keys in order of first appearance. *)
Fixpoint union_keys (seen : list string) (ks : list string) : list string :=
  match ks with
  | [] => seen
  | k :: ks' => union_keys (if mem k seen then seen else (seen ++ [k])%list) ks'
  end.

(** [pd.DataFrame(records)]: the columns are the keys of the records in
    order of first appearance, a missing value is null. *)
Definition from_records (recs : list Record_) : DataFrame :=
  let cols := fold_left (fun seen r => union_keys seen (map fst r)) recs [] in
  {| columns := cols;
     rows := map (fun r => map (fun c => match lookup c r with
                                         | Some v => v
                                         | None => CNull
                                         end) cols) recs |}.

Fixpoint index_of (k : string) (ks : list string) : option nat :=
  match ks with
  | [] => None
  | k' :: ks' => if k =? k' then Some 0
                 else match index_of k ks' with
                      | Some i => Some (S i)
                      | None => None
                      end
  end.

(** [df[x]]: the values of a column; [KeyError] when it is missing. *)
Definition get_column (df : DataFrame) (x : string) : Outcome (list Cell) :=
  match index_of x (columns df) with
  | Some i => Ret (map (fun r => nth i r CNull) (rows df))
  | None => Raise (Exception x)
  end.

Fixpoint set_nth (i : nat) (v : Cell) (r : list Cell) : list Cell :=
  match i, r with
  | _, [] => []
  | O, _ :: r' => v :: r'
  | S i', c :: r' => c :: set_nth i' v r'
  end.

(** [df[x] = col]: replaces the column in place, or adds it as the last
    column when [x] is new. *)
Definition set_column (df : DataFrame) (x : string) (col : list Cell) : DataFrame :=
  match index_of x (columns df) with
  | Some i =>
      {| columns := columns df;
         rows := map (fun rc => set_nth i (snd rc) (fst rc))
                     (combine (rows df) col) |}
  | None =>
      {| columns := (columns df ++ [x])%list;
         rows := map (fun rc => (fst rc ++ [snd rc])%list) (combine (rows df) col) |}
  end.

End Frame.

(** ** Data model *)

(** Modelled from the spec: the enum [QueryType] of
    [agents/classify_agent.py], of which the controller names [SQL] and
    [VIZ]; the spec lists {SQL, VIZ, CONVERSATIONAL, ...}. *)
Inductive QueryType : Type :=
| SQL
| VIZ
| CONVERSATIONAL
| OTHER (name : string).

Definition QueryType_eqb (a b : QueryType) : bool :=
  match a, b with
  | SQL, SQL | VIZ, VIZ | CONVERSATIONAL, CONVERSATIONAL => true
  | OTHER n, OTHER m => n =? m
  | _, _ => false
  end.

(** [str(query_type)] as the f-string prints it. *)
Definition QueryType_str (q : QueryType) : string :=
  "QueryType." ++ match q with
                  | SQL => "SQL"
                  | VIZ => "VIZ"
                  | CONVERSATIONAL => "CONVERSATIONAL"
                  | OTHER n => n
                  end.

(** [query_type in [QueryType.SQL, QueryType.VIZ]] *)
Definition in_sql_viz (q : QueryType) : bool :=
  existsb (QueryType_eqb q) [SQL; VIZ].

Record Classification : Type := { query_type : QueryType }.

Inductive Role : Type := user | assistant.

(** The chart directive [{x_column, y_columns, chart_type}];
    [chart_type = None] is a dict without the key ["chart_type"]. *)
Record ChartInfo : Type := {
  x_column : string;
  y_columns : list string;
  chart_type : option string
}.

(** [chart_info.get("chart_type", "line")] *)
Definition get_chart_type (ci : ChartInfo) : string :=
  match chart_type ci with
  | Some t => t
  | None => "line"
  end.

(** One entry of [chat_history], a dict.  An optional field is [None]
    when the dict has no such key; ["sql_query"] may be present with the
    value [None], hence the nested option. *)
Record ChatMessage : Type := {
  role : Role;
  text : string;
  sql_query : option (option string);
  chart_data : option (list Record_);
  chart_info : option ChartInfo
}.

(** [{"role": r, "text": t}] *)
Definition text_message (r : Role) (t : string) : ChatMessage :=
  {| role := r; text := t; sql_query := None; chart_data := None; chart_info := None |}.

(** Lines 168-172: the directive stored with the message, with the
    y-columns the validator kept and the chart type made explicit. *)
Definition normalized (ci : ChartInfo) (valid_y_columns : list string) : ChartInfo :=
  {| x_column := x_column ci;
     y_columns := valid_y_columns;
     chart_type := Some (get_chart_type ci) |}.

(** [m["chart_data"] = records; m["chart_info"] = ci] (lines 167-172) *)
Definition set_chart (m : ChatMessage) (records : list Record_) (ci : ChartInfo)
  : ChatMessage :=
  {| role := role m;
     text := text m;
     sql_query := sql_query m;
     chart_data := Some records;
     chart_info := Some ci |}.

(** ["date" in x.lower() or "time" in x.lower()] (line 174) *)
Definition names_a_date (x : string) : bool :=
  Str.contains "date" (Str.lower x) || Str.contains "time" (Str.lower x).

(** The dict [process_query] returns. *)
Module Result.
Record t : Type := {
  classification : Classification;
  sql_query : option string;
  success : bool;
  data : option DataFrame;
  chart_info : option ChartInfo;
  response_text : string
}.

(** [result["data"][x] = col] seen from [result]. *)
Definition with_data (r : t) (df : DataFrame) : t :=
  {| classification := classification r;
     sql_query := sql_query r;
     success := success r;
     data := Some df;
     chart_info := chart_info r;
     response_text := response_text r |}.
End Result.

(** Lines 148-152: the assistant message before any chart is attached;
    [result.get("sql_query")] is stored under its key even when [None]. *)
Definition new_assistant_message (result : Result.t) : ChatMessage :=
  {| role := assistant;
     text := Result.response_text result;
     sql_query := Some (Result.sql_query result);
     chart_data := None;
     chart_info := None |}.

(** ** Collaborators

    The modules [orchestrator], [visualization] and [utils.debug_utils],
    pandas' date parser and [traceback] are outside the controller.  Each
    call may raise; the pipeline may also update the shared agent memory. *)
Record Collaborators : Type := {
  Chart : Type;
  Memory : Type;
  Agent : Type;
  process_query :
    Agent -> Agent -> Agent -> string -> Memory -> Outcome Result.t * Memory;
  validate_chart_inputs :
    DataFrame -> string -> list string -> Outcome (bool * list string * string);
  create_visualization :
    DataFrame -> string -> list string -> string -> Outcome Chart;
  display_visualization : Chart -> Outcome unit;
  to_datetime : list Cell -> Outcome (list Cell);
  is_debug_mode : bool;
  format_exc : exn -> string
}.

(** ** The controller *)

Section Controller.

Variable E : Collaborators.

(** [st.session_state] *)
Record Session : Type := {
  chat_history : list ChatMessage;
  is_processing : bool;
  shared_memory : Memory E;
  agents : Agent E * Agent E * Agent E
}.

Inductive StatusState : Type := complete | errored.

(** What a run does to the outside, in order: the calls to Streamlit
    and to the debug helpers, which display, and the calls to the
    collaborators. *)
Inductive Event : Type :=
| st_chat_message (r : Role)
| st_markdown (s : string)
| st_warning (s : string)
| st_error (s : string)
| st_status (label : string)
| status_write (s : string)
| status_code (code : string)
| status_update (label : string) (state : StatusState)
| show_data_debug (df : DataFrame)
| show_chart_debug (ci : ChartInfo)
| debug_visualization (df : DataFrame) (ci : ChartInfo)
| show_error_debug (e : exn) (df : DataFrame) (ci : ChartInfo)
| call_process_query (q : string)
| call_validate_chart_inputs (df : DataFrame) (x : string) (ys : list string)
| call_create_visualization (df : DataFrame) (x : string) (ys : list string) (ty : string)
| call_display_visualization (c : Chart E)
| call_to_datetime (col : list Cell).

(** A run of a Python block: how it ended, the session state it left
    and what it did to the outside.  A block that raises keeps the
    effects it had before. *)
Record Run (A : Type) : Type := {
  outcome : Outcome A;
  final : Session;
  events : list Event
}.
Arguments outcome {A} r.
Arguments final {A} r.
Arguments events {A} r.

Definition M (A : Type) : Type := Session -> Run A.

Definition prepend {A : Type} (t : list Event) (r : Run A) : Run A :=
  match r with
  | {| outcome := o; final := s; events := t' |} =>
      {| outcome := o; final := s; events := (t ++ t')%list |}
  end.

#[local] Instance Monad_M : Monad M := {|
  ret := fun _ a s => {| outcome := Ret a; final := s; events := [] |};
  bind := fun _ _ m k s =>
    match m s with
    | {| outcome := Ret a; final := s'; events := t |} => prepend t (k a s')
    | {| outcome := Raise e; final := s'; events := t |} =>
        {| outcome := Raise e; final := s'; events := t |}
    end
|}.

(** [raise] and [try: ... except Exception as e: ...] *)
#[local] Instance MonadExc_M : MonadExc exn M := {|
  raise := fun _ e s => {| outcome := Raise e; final := s; events := [] |};
  catch := fun _ body handler s =>
    match body s with
    | {| outcome := Ret a; final := s'; events := t |} =>
        {| outcome := Ret a; final := s'; events := t |}
    | {| outcome := Raise e; final := s'; events := t |} =>
        prepend t (handler e s')
    end
|}.

(** [try: ... finally: ...]: the cleanup runs on every exit of the
    body; if it raises itself, its exception replaces the outcome. *)
Definition try_finally {A : Type} (body : M A) (cleanup : M unit) : M A :=
  fun s =>
    match body s with
    | {| outcome := o; final := s'; events := t |} =>
        match cleanup s' with
        | {| outcome := Ret _; final := s''; events := t' |} =>
            {| outcome := o; final := s''; events := (t ++ t')%list |}
        | {| outcome := Raise e; final := s''; events := t' |} =>
            {| outcome := Raise e; final := s''; events := (t ++ t')%list |}
        end
    end.

Definition when (b : bool) (m : M unit) : M unit :=
  if b then m else ret tt.

Definition emit (e : Event) : M unit :=
  fun s => {| outcome := Ret tt; final := s; events := [e] |}.

(** A call to a collaborator: recorded, then its outcome. *)
Definition call {A : Type} (e : Event) (r : Outcome A) : M A :=
  fun s => {| outcome := r; final := s; events := [e] |}.

Definition lift {A : Type} (r : Outcome A) : M A :=
  fun s => {| outcome := r; final := s; events := [] |}.

Definition get_session : M Session :=
  fun s => {| outcome := Ret s; final := s; events := [] |}.

(** [st.session_state.is_processing = b] *)
Definition set_is_processing (b : bool) : M unit :=
  fun s =>
    {| outcome := Ret tt;
       final := {| chat_history := chat_history s;
                   is_processing := b;
                   shared_memory := shared_memory s;
                   agents := agents s |};
       events := [] |}.

(** [st.session_state.chat_history.append(m)] *)
Definition append_history (m : ChatMessage) : M unit :=
  fun s =>
    {| outcome := Ret tt;
       final := {| chat_history := (chat_history s ++ [m])%list;
                   is_processing := is_processing s;
                   shared_memory := shared_memory s;
                   agents := agents s |};
       events := [] |}.

(** [process_query(classify_agent, sql_agent, response_agent, user_query)]
    with the agents of the session, which share [shared_memory]. *)
Definition run_process_query (user_query : string) : M Result.t :=
  fun s =>
    let '(classify_agent, sql_agent, response_agent) := agents s in
    let (r, memory) :=
      process_query E classify_agent sql_agent response_agent user_query
                    (shared_memory s) in
    {| outcome := r;
       final := {| chat_history := chat_history s;
                   is_processing := is_processing s;
                   shared_memory := memory;
                   agents := agents s |};
       events := [call_process_query user_query] |}.

(** Lines 123-146: what the status box reports about the result. *)
Definition status_report (result : Result.t) : M unit :=
  let classification := Result.classification result in
  emit (status_write ("Query type: " ++ QueryType_str (query_type classification))) ;;
  if in_sql_viz (query_type classification) then
    match Result.sql_query result with
    | Some sql =>
        when (Str.truthy (Some sql))
             (emit (status_write "SQL Query:") ;;
              emit (status_code sql))
    | None => ret tt
    end ;;
    if Result.success result then
      match Result.data result with
      | Some df =>
          emit (status_write ("Query returned " ++ Str.of_nat (Frame.len df) ++ " rows")) ;;
          when (is_debug_mode E)
               (emit (show_data_debug df) ;;
                match Result.chart_info result with
                | Some ci => emit (show_chart_debug ci)
                | None => ret tt
                end)
      | None => ret tt
      end ;;
      emit (status_update "Query processed successfully!" complete)
    else
      emit (status_update "Error executing query" errored)
  else
    emit (status_update "Query processed" complete).

(** Lines 118-146: the status box around the pipeline call. *)
Definition status_block (user_query : string) : M Result.t :=
  emit (st_status "Processing your query...") ;;
  result <- run_process_query user_query ;;
  status_report result ;;
  ret result.

(** Lines 174-180: the date coercion of the pipeline's table, inside
    [try: ... except: pass]. *)
Definition coerce_dates (result : Result.t) (df : DataFrame) (x : string)
  : M Result.t :=
  catch
    (col <- lift (Frame.get_column df x) ;;
     col' <- call (call_to_datetime col) (to_datetime E col) ;;
     ret (Result.with_data result (Frame.set_column df x col')))
    (fun _ => ret result).

(** Lines 154-180: the chart fields of the new message.  Returns the
    local [result] and [assistant_message] as the block leaves them. *)
Definition attach_chart (result : Result.t) (assistant_message : ChatMessage)
  : M (Result.t * ChatMessage) :=
  match Result.chart_info result, Result.data result with
  | Some ci, Some df =>
      if negb (Frame.empty df) then
        let x := x_column ci in
        let ys := y_columns ci in
        '(is_valid, valid_y_columns, _) <-
          call (call_validate_chart_inputs df x ys)
               (validate_chart_inputs E df x ys) ;;
        if is_valid : bool then
          let assistant_message :=
            set_chart assistant_message (Frame.to_dict_records df)
                      (normalized ci valid_y_columns) in
          if names_a_date x then
            result <- coerce_dates result df x ;;
            ret (result, assistant_message)
          else ret (result, assistant_message)
        else ret (result, assistant_message)
      else ret (result, assistant_message)
  | _, _ => ret (result, assistant_message)
  end.

(** Lines 186-203: the immediate render of the new message. *)
Definition render_new (result : Result.t) (assistant_message : ChatMessage)
  : M unit :=
  emit (st_chat_message assistant) ;;
  emit (st_markdown (Result.response_text result)) ;;
  match chart_data assistant_message, chart_info assistant_message with
  | Some records, Some ci =>
      let data := Frame.from_records records in
      catch
        (chart <- call (call_create_visualization data (x_column ci) (y_columns ci)
                                                  (get_chart_type ci))
                       (create_visualization E data (x_column ci) (y_columns ci)
                                             (get_chart_type ci)) ;;
         call (call_display_visualization chart) (display_visualization E chart))
        (fun e =>
           emit (st_error ("Error displaying visualization: " ++ exn_msg e)) ;;
           when (is_debug_mode E) (emit (show_error_debug e data ci)))
  | _, _ => ret tt
  end.

(** Lines 109-203: the body of the [try]. *)
Definition turn_body (user_query : string) : M unit :=
  set_is_processing true ;;
  append_history (text_message user user_query) ;;
  emit (st_chat_message user) ;;
  emit (st_markdown user_query) ;;
  result <- status_block user_query ;;
  let assistant_message := new_assistant_message result in
  '(result, assistant_message) <- attach_chart result assistant_message ;;
  append_history assistant_message ;;
  set_is_processing false ;;
  render_new result assistant_message.

(** Lines 205-215: [except Exception as e]. *)
Definition on_exception (e : exn) : M unit :=
  let error_message := "Error: " ++ exn_msg e in
  append_history (text_message assistant error_message) ;;
  emit (st_chat_message assistant) ;;
  emit (st_error error_message) ;;
  when (is_debug_mode E) (emit (st_error (format_exc E e))).

(** [handle_query(user_query)]; the argument is [None] or a string. *)
Definition handle_query (user_query : option string) : M unit :=
  match user_query with
  | Some q =>
      if negb (Str.truthy user_query) then ret tt
      else
        try_finally
          (catch (turn_body q) on_exception)
          (set_is_processing false)
  | None => ret tt
  end.

(** Lines 57-97: one iteration of the replay loop of
    [create_interface]; [continue] ends the iteration. *)
Definition replay_message (message : ChatMessage) : M unit :=
  emit (st_chat_message (role message)) ;;
  emit (st_markdown (text message)) ;;
  s <- get_session ;;
  if is_processing s then ret tt
  else
    match role message, chart_data message, chart_info message with
    | assistant, Some records, Some ci =>
        let data := Frame.from_records records in
        catch
          (when (is_debug_mode E) (emit (debug_visualization data ci)) ;;
           '(is_valid, valid_y_columns, error_message) <-
             call (call_validate_chart_inputs data (x_column ci) (y_columns ci))
                  (validate_chart_inputs E data (x_column ci) (y_columns ci)) ;;
           if negb is_valid then emit (st_warning error_message)
           else
             chart <- call (call_create_visualization data (x_column ci)
                                                      valid_y_columns (get_chart_type ci))
                           (create_visualization E data (x_column ci)
                                                 valid_y_columns (get_chart_type ci)) ;;
             call (call_display_visualization chart) (display_visualization E chart))
          (fun e =>
             emit (st_error ("Error displaying visualization: " ++ exn_msg e)) ;;
             when (is_debug_mode E) (emit (show_error_debug e data ci)))
    | _, _, _ => ret tt
    end.

(** [for message in xs: body(message)] *)
Fixpoint for_each {A : Type} (body : A -> M unit) (xs : list A) : M unit :=
  match xs with
  | [] => ret tt
  | x :: xs' => body x ;; for_each body xs'
  end.

(** Lines 56-97: the replay of the stored history. *)
Definition replay_history : M unit :=
  s <- get_session ;;
  for_each replay_message (chat_history s).

End Controller.

Arguments chat_history {E} s.
Arguments is_processing {E} s.
Arguments shared_memory {E} s.
Arguments agents {E} s.
Arguments outcome {E A} r.
Arguments final {E A} r.
Arguments events {E A} r.
Arguments st_chat_message {E} r.
Arguments st_markdown {E} s.
Arguments st_warning {E} s.
Arguments st_error {E} s.
Arguments st_status {E} label.
Arguments status_write {E} s.
Arguments status_code {E} code.
Arguments status_update {E} label state.
Arguments show_data_debug {E} df.
Arguments show_chart_debug {E} ci.
Arguments debug_visualization {E} df ci.
Arguments show_error_debug {E} e df ci.
Arguments call_process_query {E} q.
Arguments call_validate_chart_inputs {E} df x ys.
Arguments call_create_visualization {E} df x ys ty.
Arguments call_display_visualization {E} c.
Arguments call_to_datetime {E} col.

(** ** Vocabulary of the statements *)

Section Vocabulary.

Variable E : Collaborators.

(** The pipeline call of a turn on [q] that starts in the session [s]:
    its outcome and the shared memory it leaves. *)
Definition pipeline (s : Session E) (q : string) : Outcome Result.t * Memory E :=
  let '(classify_agent, sql_agent, response_agent) := agents s in
  process_query E classify_agent sql_agent response_agent q (shared_memory s).

(** The session a turn on [q] leaves when it appended [added]. *)
Definition after_turn (s : Session E) (q : string) (added : list ChatMessage)
  : Session E :=
  {| chat_history := (chat_history s ++ added)%list;
     is_processing := false;
     shared_memory := snd (pipeline s q);
     agents := agents s |}.

(** The validator accepts the directive [ci] of the result [r] on its
    non-empty table [df] and keeps the y-columns [ys]. *)
Definition chart_validated (r : Result.t) (df : DataFrame) (ci : ChartInfo)
           (ys : list string) : Prop :=
  Result.chart_info r = Some ci /\
  Result.data r = Some df /\
  Frame.empty df = false /\
  exists msg,
    validate_chart_inputs E df (x_column ci) (y_columns ci) = Ret (true, ys, msg).

(** The validator raises on the directive and the non-empty table of
    the result [r]. *)
Definition validator_raises (r : Result.t) (e : exn) : Prop :=
  exists ci df,
    Result.chart_info r = Some ci /\
    Result.data r = Some df /\
    Frame.empty df = false /\
    validate_chart_inputs E df (x_column ci) (y_columns ci) = Raise e.

(** The validator rejects the directive of the result [r]: it returns
    [is_valid = False] with the message [msg]. *)
Definition validator_rejects (r : Result.t) (msg : string) : Prop :=
  exists ci df ys,
    Result.chart_info r = Some ci /\
    Result.data r = Some df /\
    Frame.empty df = false /\
    validate_chart_inputs E df (x_column ci) (y_columns ci)
    = Ret (false, ys, msg).

(** The assistant message of the [except] branch. *)
Definition error_message (e : exn) : ChatMessage :=
  text_message assistant ("Error: " ++ exn_msg e).

(** What every turn does first: the user bubble, the status box and the
    pipeline call. *)
Definition opening (q : string) : list (Event E) :=
  [st_chat_message user; st_markdown q;
   st_status "Processing your query..."; call_process_query q].

(** What the [except] branch shows for [e]: the error in an assistant
    bubble and, in debug mode, the traceback. *)
Definition error_events (e : exn) : list (Event E) :=
  ([st_chat_message assistant; st_error ("Error: " ++ exn_msg e)]
   ++ if is_debug_mode E then [st_error (format_exc E e)] else [])%list.

(** The table of a result after lines 174-180: the x-column parsed
    as dates when its name asks for it and the parse succeeds. *)
Definition after_coercion (r : Result.t) (df : DataFrame) (x : string)
  : Result.t :=
  if names_a_date x then
    match Frame.get_column df x with
    | Ret col =>
        match to_datetime E col with
        | Ret col' => Result.with_data r (Frame.set_column df x col')
        | Raise _ => r
        end
    | Raise _ => r
    end
  else r.

(** The immediate render of the message [m] raises [e]: the builder
    does, or the display of the chart it built. *)
Definition render_raises (m : ChatMessage) (e : exn) : Prop :=
  exists records ci,
    chart_data m = Some records /\
    chart_info m = Some ci /\
    let data := Frame.from_records records in
    let built := create_visualization E data (x_column ci) (y_columns ci)
                                      (get_chart_type ci) in
    built = Raise e \/
    exists chart, built = Ret chart /\ display_visualization E chart = Raise e.

(** A warning or an error shown to the user. *)
Definition failure_message (ev : Event E) : bool :=
  match ev with
  | st_warning _ | st_error _ => true
  | _ => false
  end.

(** The marks of a successful query in the status box (lines 132-142):
    the row count, the debug views of table and directive, and a
    status set to complete. *)
Definition success_indicator (ev : Event E) : bool :=
  match ev with
  | status_write s => String.prefix "Query returned " s
  | show_data_debug _ | show_chart_debug _ => true
  | status_update _ complete => true
  | _ => false
  end.

(** The status set to error. *)
Definition error_indicator (ev : Event E) : bool :=
  match ev with
  | status_update _ errored => true
  | _ => false
  end.

(** The SQL text and the diagnostics of the result table in the status
    box (lines 127-136). *)
Definition sql_surface (ev : Event E) : bool :=
  match ev with
  | status_code _ => true
  | status_write s => (s =? "SQL Query:") || String.prefix "Query returned " s
  | show_data_debug _ => true
  | _ => false
  end.

(** Validation, construction or display of a chart. *)
Definition chart_work (ev : Event E) : bool :=
  match ev with
  | call_validate_chart_inputs _ _ _
  | call_create_visualization _ _ _ _
  | call_display_visualization _
  | debug_visualization _ _ => true
  | _ => false
  end.

Definition quiet (ev : Event E) : bool := negb (failure_message ev).

Definition not_success (ev : Event E) : bool := negb (success_indicator ev).

Definition not_sql (ev : Event E) : bool := negb (sql_surface ev).

Definition no_chart_work (ev : Event E) : bool := negb (chart_work ev).

(** A block all of whose events satisfy [P]. *)
Definition Emits (P : Event E -> bool) {A : Type} (m : M E A) : Prop :=
  forall s, forallb P (events (m s)) = true.

(** The messages a run appended to the history of [s]. *)
Definition appended {A : Type} (s : Session E) (r : Run E A) : list ChatMessage :=
  skipn (length (chat_history s)) (chat_history (final r)).

(** What the replay shows of a message whatever the flag: its bubble
    and its text. *)
Definition bubble (m : ChatMessage) : list (Event E) :=
  [st_chat_message (role m); st_markdown (text m)].

(** A block that neither reads nor writes the session. *)
Definition Stateless {A : Type} (m : M E A) : Prop :=
  exists o t, forall s, m s = {| outcome := o; final := s; events := t |}.

(** A block that ends normally from every session: no exception
    leaves it. *)
Definition Total {A : Type} (m : M E A) : Prop :=
  forall s, exists a, outcome (m s) = Ret a.

(** The three ways a turn on a non-empty query ends. *)
Inductive turn_view (s : Session E) (q : string) : Run E unit -> Prop :=
| turn_pipeline_raised (e : exn) :
    fst (pipeline s q) = Raise e ->
    turn_view s q
      {| outcome := Ret tt;
         final := after_turn s q [text_message user q; error_message e];
         events := (opening q ++ error_events e)%list |}
| turn_validator_raised (r : Result.t) (e : exn) :
    fst (pipeline s q) = Ret r ->
    outcome (attach_chart E r (new_assistant_message r) s) = Raise e ->
    turn_view s q
      {| outcome := Ret tt;
         final := after_turn s q [text_message user q; error_message e];
         events := (opening q
                    ++ events (status_report E r s)
                    ++ events (attach_chart E r (new_assistant_message r) s)
                    ++ error_events e)%list |}
| turn_completed (r r' : Result.t) (m : ChatMessage) :
    fst (pipeline s q) = Ret r ->
    outcome (attach_chart E r (new_assistant_message r) s) = Ret (r', m) ->
    turn_view s q
      {| outcome := Ret tt;
         final := after_turn s q [text_message user q; m];
         events := (opening q
                    ++ events (status_report E r s)
                    ++ events (attach_chart E r (new_assistant_message r) s)
                    ++ events (render_new E r' m s))%list |}.

End Vocabulary.

Arguments Stateless {E A} m.
Arguments Total {E A} m.
Arguments Emits {E} P {A} m.
Arguments quiet {E} ev.
Arguments not_success {E} ev.
Arguments not_sql {E} ev.
Arguments no_chart_work {E} ev.
Arguments appended {E A} s r.

(** ** Concrete collaborators

    An instance of the collaborators on which the controller can be run:
    a pipeline given as a function of the query, the validator of the
    specification, a builder that knows three chart types, and a date
    parser that reads integers as timestamps. *)

Module Demo.

(** Modelled from the spec: [validate_chart_inputs] of
    [visualization.py] (section 4.1).  It fails closed on an empty
    table or a missing x-column, keeps the y-columns that exist in
    input order, fails when none is left, and never raises.  The
    wording of the messages is not specified. *)
Definition validate (df : DataFrame) (x : string) (ys : list string)
  : Outcome (bool * list string * string) :=
  if Frame.empty df then Ret (false, [], "No data to plot")
  else if negb (Frame.mem x (columns df))
       then Ret (false, [], "Column " ++ x ++ " not found")
       else
         match filter (fun y => Frame.mem y (columns df)) ys with
         | [] => Ret (false, [], "No valid y columns")
         | valid => Ret (true, valid, EmptyString)
         end.

(** A chart is what it was built from. *)
Record chart : Type := {
  chart_frame : DataFrame;
  chart_x : string;
  chart_ys : list string;
  chart_kind : string
}.

(** Modelled from the spec: the builder of [visualization.py]
    (section 4.2), which rejects a chart type outside its closed set. *)
Definition create (df : DataFrame) (x : string) (ys : list string) (ty : string)
  : Outcome chart :=
  if existsb (String.eqb ty) ["line"; "bar"; "scatter"]
  then Ret {| chart_frame := df; chart_x := x; chart_ys := ys; chart_kind := ty |}
  else Raise (Exception ("Unsupported chart type: " ++ ty)).

(** Integers are timestamps; a string or a null does not parse. *)
Fixpoint parse_dates (col : list Cell) : Outcome (list Cell) :=
  match col with
  | [] => Ret []
  | c :: col' =>
      match c, parse_dates col' with
      | CInt z, Ret r => Ret (CTime z :: r)
      | CTime t, Ret r => Ret (CTime t :: r)
      | CInt _, Raise e | CTime _, Raise e => Raise e
      | _, _ => Raise (Exception "Unknown datetime string format")
      end
  end.

(** The collaborators around a pipeline [pipeline]; the shared memory
    is the list of the queries seen; [display_ok = false] makes the
    display call raise. *)
Definition env (pipeline : string -> Outcome Result.t) (display_ok debug : bool)
  : Collaborators :=
  {| Chart := chart;
     Memory := list string;
     Agent := unit;
     process_query := fun _ _ _ q mem => (pipeline q, (mem ++ [q])%list);
     validate_chart_inputs := validate;
     create_visualization := create;
     display_visualization := fun _ =>
       if display_ok then Ret tt else Raise (Exception "display failed");
     to_datetime := parse_dates;
     is_debug_mode := debug;
     format_exc := fun e => "Traceback (most recent call last): " ++ exn_msg e |}.

(** The session right after [create_interface] initialised it. *)
Definition welcome : ChatMessage :=
  text_message assistant
    "Welcome to the Strava Data Assistant! I can help you analyze your Strava activities. How can I assist you today?".

Definition start (E : Collaborators) (mem : Memory E) (a : Agent E) : Session E :=
  {| chat_history := [welcome];
     is_processing := false;
     shared_memory := mem;
     agents := (a, a, a) |}.

(** Scenario B of the specification: runs over time. *)
Definition runs : DataFrame :=
  {| columns := ["date"; "distance"];
     rows := [[CInt 20240101; CInt 5]; [CInt 20240108; CInt 8]] |}.

Definition result_B : Result.t :=
  {| Result.classification := {| query_type := VIZ |};
     Result.sql_query := Some "SELECT date, distance FROM activities";
     Result.success := true;
     Result.data := Some runs;
     Result.chart_info := Some {| x_column := "date";
                                  y_columns := ["distance"];
                                  chart_type := Some "line" |};
     Result.response_text := "Here are your runs over time." |}.

(** Scenario C: the chart directive names a column the table lacks. *)
Definition result_C : Result.t :=
  {| Result.classification := {| query_type := VIZ |};
     Result.sql_query := Some "SELECT date, distance FROM activities";
     Result.success := true;
     Result.data := Some runs;
     Result.chart_info := Some {| x_column := "date";
                                  y_columns := ["pace"];
                                  chart_type := Some "line" |};
     Result.response_text := "Here are your runs over time." |}.

(** Scenario A: a conversational answer. *)
Definition result_A : Result.t :=
  {| Result.classification := {| query_type := CONVERSATIONAL |};
     Result.sql_query := None;
     Result.success := true;
     Result.data := None;
     Result.chart_info := None;
     Result.response_text := "Hello! Ask me about your activities." |}.

(** A query whose execution failed. *)
Definition result_failed : Result.t :=
  {| Result.classification := {| query_type := SQL |};
     Result.sql_query := Some "SELECT * FROM activity";
     Result.success := false;
     Result.data := None;
     Result.chart_info := None;
     Result.response_text := "I could not run that query." |}.

(** A failure reported on a conversational turn. *)
Definition result_soft_failure : Result.t :=
  {| Result.classification := {| query_type := CONVERSATIONAL |};
     Result.sql_query := None;
     Result.success := false;
     Result.data := None;
     Result.chart_info := None;
     Result.response_text := "Sorry, something went wrong." |}.

(** A conversational turn whose result still carries SQL text. *)
Definition result_stray_sql : Result.t :=
  {| Result.classification := {| query_type := CONVERSATIONAL |};
     Result.sql_query := Some "SELECT 1";
     Result.success := true;
     Result.data := None;
     Result.chart_info := None;
     Result.response_text := "Nothing to query here." |}.

Definition E_A : Collaborators := env (fun _ => Ret result_A) true false.
Definition E_B : Collaborators := env (fun _ => Ret result_B) true false.
Definition E_C : Collaborators := env (fun _ => Ret result_C) true false.
Definition E_failed : Collaborators := env (fun _ => Ret result_failed) true false.
Definition E_soft_failure : Collaborators :=
  env (fun _ => Ret result_soft_failure) true false.
Definition E_stray_sql : Collaborators :=
  env (fun _ => Ret result_stray_sql) true false.

(** The pipeline is down. *)
Definition E_down : Collaborators :=
  env (fun _ => Raise (Exception "pipeline down")) true false.

(** Scenario B with a display that raises. *)
Definition E_B_no_display : Collaborators :=
  env (fun _ => Ret result_B) false false.

Definition ask : string := "show my runs over time".

(** The assistant message scenario B persists. *)
Definition message_B : ChatMessage :=
  set_chart (new_assistant_message result_B)
            (Frame.to_dict_records runs)
            (normalized {| x_column := "date";
                           y_columns := ["distance"];
                           chart_type := Some "line" |} ["distance"]).

(** A session with scenario B in its history, at rest or in flight. *)
Definition session_B (processing : bool) : Session E_B :=
  Build_Session E_B [welcome; text_message user ask; message_B]
                processing [ask] (tt, tt, tt).

End Demo.


(** ** The interface

    [create_interface] is the script Streamlit runs again on every
    interaction: it fills in the missing keys of the session state,
    replays the history and hands the prompt, if any, to [handle_query]. *)

(** What [create_interface] uses besides the collaborators of the
    controller: [setup_debug_mode()] of [utils.debug_utils], the
    constructor [AgentMemory()] and [initialize_agents] of
    [orchestrator], which may raise. *)
Record Platform (E : Collaborators) : Type := {
  setup_debug_mode : bool;
  AgentMemory : Memory E;
  initialize_agents : Memory E -> Outcome (Agent E * Agent E * Agent E)
}.
Arguments setup_debug_mode {E} p.
Arguments AgentMemory {E} p.
Arguments initialize_agents {E} p m.

(** Lines 43-48: the greeting a new session starts with. *)
Definition welcome_message : ChatMessage :=
  text_message assistant
    "Welcome to the Strava Data Assistant! I can help you analyze your Strava activities. How can I assist you today?".

Section Interface.

Variable E : Collaborators.
Variable P : Platform E.

(** [st.session_state] as the script finds it: a key may be missing. *)
Record SessionState : Type := {
  ss_is_processing : option bool;
  ss_chat_history : option (list ChatMessage);
  ss_shared_memory : option (Memory E);
  ss_agents : option (Agent E * Agent E * Agent E)
}.

(** The session state with all its keys. *)
Definition of_session (s : Session E) : SessionState :=
  {| ss_is_processing := Some (is_processing s);
     ss_chat_history := Some (chat_history s);
     ss_shared_memory := Some (shared_memory s);
     ss_agents := Some (agents s) |}.

(** What a run of the script does to the outside: the page set-up, the
    title (with the bug icon in debug mode), the debug header, the
    loading of the environment, the construction of the agents, the
    input box, and the events of the replay and of the turn. *)
Inductive PageEvent : Type :=
| st_set_page_config
| st_title (bug_icon : bool)
| show_debug_header
| load_dotenv
| call_initialize_agents
| st_chat_input
| body (e : Event E).

Record ScriptRun : Type := {
  script_outcome : Outcome unit;
  script_state : SessionState;
  script_events : list PageEvent
}.

(** Lines 27-40, what is shown before the history. *)
Definition header : list PageEvent :=
  (st_set_page_config
   :: (if setup_debug_mode P then [st_title true; show_debug_header]
       else [st_title false])
   ++ [load_dotenv])%list.

(** [if key not in st.session_state: st.session_state[key] = v] *)
Definition setdefault {A : Type} (stored : option A) (v : A) : A :=
  match stored with
  | Some a => a
  | None => v
  end.

(** Lines 99-100: the input box and the turn on a truthy prompt, after a
    replay that left the session [s]. *)
Definition prompt_step (prompt : option string) (s : Session E)
  : Outcome unit * Session E * list PageEvent :=
  if Str.truthy prompt then
    match handle_query E prompt s with
    | {| outcome := o; final := s'; events := t |} =>
        (o, s', st_chat_input :: map body t)
    end
  else (Ret tt, s, [st_chat_input]).

(** [create_interface()] on the prompt the input box returns in this
    run. *)
Definition create_interface (prompt : option string) (ss : SessionState)
  : ScriptRun :=
  let is_processing := setdefault (ss_is_processing ss) false in
  let chat_history := setdefault (ss_chat_history ss) [welcome_message] in
  let shared_memory := setdefault (ss_shared_memory ss) (AgentMemory P) in
  match
    match ss_agents ss with
    | Some agents => (Ret agents, [])
    | None => (initialize_agents P shared_memory, [call_initialize_agents])
    end
  with
  | (Raise e, calls) =>
      {| script_outcome := Raise e;
         script_state := {| ss_is_processing := Some is_processing;
                            ss_chat_history := Some chat_history;
                            ss_shared_memory := Some shared_memory;
                            ss_agents := None |};
         script_events := (header ++ calls)%list |}
  | (Ret agents, calls) =>
      match replay_history E {| chat_history := chat_history;
                                is_processing := is_processing;
                                shared_memory := shared_memory;
                                agents := agents |} with
      | {| outcome := Raise e; final := s; events := t |} =>
          {| script_outcome := Raise e;
             script_state := of_session s;
             script_events := (header ++ calls ++ map body t)%list |}
      | {| outcome := Ret _; final := s; events := t |} =>
          let '(o, s', t') := prompt_step prompt s in
          {| script_outcome := o;
             script_state := of_session s';
             script_events := (header ++ calls ++ map body t ++ t')%list |}
      end
  end.

(** [main()] *)
Definition main : option string -> SessionState -> ScriptRun := create_interface.

(** The session state of a browser session that just opened. *)
Definition fresh : SessionState :=
  {| ss_is_processing := None;
     ss_chat_history := None;
     ss_shared_memory := None;
     ss_agents := None |}.

(** Streamlit runs the script once per interaction and keeps the session
    state between the runs, also after a run that raised: the runs on
    the successive prompts, and the state they leave. *)
Fixpoint reruns (prompts : list (option string)) (ss : SessionState)
  : list ScriptRun :=
  match prompts with
  | [] => []
  | prompt :: prompts' =>
      let r := main prompt ss in
      r :: reruns prompts' (script_state r)
  end.

Definition state_after (prompts : list (option string)) (ss : SessionState)
  : SessionState :=
  fold_left (fun st prompt => script_state (main prompt st)) prompts ss.

End Interface.

Arguments ss_is_processing {E} s.
Arguments ss_chat_history {E} s.
Arguments ss_shared_memory {E} s.
Arguments ss_agents {E} s.
Arguments of_session {E} s.
Arguments st_set_page_config {E}.
Arguments st_title {E} bug_icon.
Arguments show_debug_header {E}.
Arguments load_dotenv {E}.
Arguments call_initialize_agents {E}.
Arguments st_chat_input {E}.
Arguments body {E} e.
Arguments script_outcome {E} s.
Arguments script_state {E} s.
Arguments script_events {E} s.
Arguments fresh {E}.

(** ** More vocabulary *)

Section Observations.

Variable E : Collaborators.

Definition is_pipeline_call (ev : Event E) : bool :=
  match ev with
  | call_process_query _ => true
  | _ => false
  end.

Definition is_validation (ev : Event E) : bool :=
  match ev with
  | call_validate_chart_inputs _ _ _ => true
  | _ => false
  end.

Definition is_build (ev : Event E) : bool :=
  match ev with
  | call_create_visualization _ _ _ _ => true
  | _ => false
  end.

Definition is_date_parse (ev : Event E) : bool :=
  match ev with
  | call_to_datetime _ => true
  | _ => false
  end.

Definition is_status_code (ev : Event E) : bool :=
  match ev with
  | status_code _ => true
  | _ => false
  end.

Definition is_status_update (ev : Event E) : bool :=
  match ev with
  | status_update _ _ => true
  | _ => false
  end.

(** A call to one of the debug helpers of [utils.debug_utils]. *)
Definition is_debug_event (ev : Event E) : bool :=
  match ev with
  | show_data_debug _ | show_chart_debug _
  | debug_visualization _ _ | show_error_debug _ _ _ => true
  | _ => false
  end.

(** The texts [st.markdown] showed, in order. *)
Definition shown_texts (t : list (Event E)) : list string :=
  flat_map (fun ev => match ev with
                      | st_markdown s => [s]
                      | _ => []
                      end) t.

(** What an [except] branch around a chart shows for [e] (lines 94-97
    and 200-203). *)
Definition inline_error (e : exn) (data : DataFrame) (ci : ChartInfo)
  : list (Event E) :=
  (st_error ("Error displaying visualization: " ++ exn_msg e)
   :: if is_debug_mode E then [show_error_debug e data ci] else [])%list.

(** The status the status box ends with for the result [r]
    (lines 126-146). *)
Definition closing_status (r : Result.t) : Event E :=
  if in_sql_viz (query_type (Result.classification r)) then
    if Result.success r
    then status_update "Query processed successfully!" complete
    else status_update "Error executing query" errored
  else status_update "Query processed" complete.

(** The calls of the chart step (lines 154-180) for the result [r]. *)
Definition chart_step_calls (r : Result.t) : list (Event E) :=
  match Result.chart_info r, Result.data r with
  | Some ci, Some df =>
      if Frame.empty df then []
      else
        call_validate_chart_inputs df (x_column ci) (y_columns ci)
        :: match validate_chart_inputs E df (x_column ci) (y_columns ci) with
           | Ret (true, _, _) =>
               if names_a_date (x_column ci) then
                 match Frame.get_column df (x_column ci) with
                 | Ret col => [call_to_datetime col]
                 | Raise _ => []
                 end
               else []
           | _ => []
           end
  | _, _ => []
  end.

(** The replay of the message [m] raises [e] inside its [try]: the
    validator does, or the builder on the kept y-columns, or the display
    of the chart it built. *)
Definition replay_raises (m : ChatMessage) (e : exn) : Prop :=
  exists records ci,
    chart_data m = Some records /\
    chart_info m = Some ci /\
    let data := Frame.from_records records in
    let checked := validate_chart_inputs E data (x_column ci) (y_columns ci) in
    checked = Raise e \/
    exists ys msg,
      checked = Ret (true, ys, msg) /\
      let built := create_visualization E data (x_column ci) ys (get_chart_type ci) in
      built = Raise e \/
      exists chart, built = Ret chart /\ display_visualization E chart = Raise e.

End Observations.

Arguments is_pipeline_call {E} ev.
Arguments is_validation {E} ev.
Arguments is_build {E} ev.
Arguments is_date_parse {E} ev.
Arguments is_status_code {E} ev.
Arguments is_status_update {E} ev.
Arguments is_debug_event {E} ev.
Arguments shown_texts {E} t.

(** A table [to_dict("records")] and [pd.DataFrame] take back and forth
    without loss: distinct column names, at least one column and one
    row, and every row as long as the header. *)
Definition well_formed (df : DataFrame) : Prop :=
  NoDup (columns df) /\
  columns df <> [] /\
  rows df <> [] /\
  Forall (fun r => length r = length (columns df)) (rows df).

Section Rendering.

Variable E : Collaborators.

(** The calls and messages of the [try] of the immediate render
    (lines 189-203) for the message [m]. *)
Definition chart_render_events (m : ChatMessage) : list (Event E) :=
  match chart_data m, chart_info m with
  | Some records, Some ci =>
      let data := Frame.from_records records in
      call_create_visualization data (x_column ci) (y_columns ci) (get_chart_type ci)
      :: match create_visualization E data (x_column ci) (y_columns ci)
                                    (get_chart_type ci) with
         | Ret chart =>
             call_display_visualization chart
             :: match display_visualization E chart with
                | Ret _ => []
                | Raise e => inline_error E e data ci
                end
         | Raise e => inline_error E e data ci
         end
  | _, _ => []
  end.

End Rendering.

Section StatusBox.

Variable E : Collaborators.

(** The lines of the status box for the result [r] (lines 124-146). *)
Definition status_lines (r : Result.t) : list (Event E) :=
  (status_write ("Query type: " ++ QueryType_str (query_type (Result.classification r)))
   :: if in_sql_viz (query_type (Result.classification r)) then
        match Result.sql_query r with
        | Some sql =>
            if Str.truthy (Some sql)
            then [status_write "SQL Query:"; status_code sql]
            else []
        | None => []
        end
        ++ (if Result.success r then
              match Result.data r with
              | Some df =>
                  status_write ("Query returned " ++ Str.of_nat (Frame.len df) ++ " rows")
                  :: (if is_debug_mode E then
                        show_data_debug df
                        :: match Result.chart_info r with
                           | Some ci => [show_chart_debug ci]
                           | None => []
                           end
                      else [])
              | None => []
              end
              ++ [status_update "Query processed successfully!" complete]
            else [status_update "Error executing query" errored])
      else [status_update "Query processed" complete])%list.

(** The four ways the events of a turn on [q] from [s] come about. *)
Inductive turn_events_view (s : Session E) (q : string) : list (Event E) -> Prop :=
| events_pipeline_raised (e : exn) :
    fst (pipeline E s q) = Raise e ->
    turn_events_view s q (opening E q ++ error_events E e)%list
| events_validator_raised (r : Result.t) (e : exn) :
    fst (pipeline E s q) = Ret r ->
    validator_raises E r e ->
    turn_events_view s q
      (opening E q ++ status_lines r ++ chart_step_calls E r
       ++ error_events E e)%list
| events_chart (r : Result.t) (df : DataFrame) (ci : ChartInfo) (ys : list string) :
    fst (pipeline E s q) = Ret r ->
    chart_validated E r df ci ys ->
    turn_events_view s q
      (opening E q ++ status_lines r ++ chart_step_calls E r
       ++ st_chat_message assistant :: st_markdown (Result.response_text r)
       :: chart_render_events E (set_chart (new_assistant_message r)
                                           (Frame.to_dict_records df)
                                           (normalized ci ys)))%list
| events_plain (r : Result.t) :
    fst (pipeline E s q) = Ret r ->
    (forall df ci ys, ~ chart_validated E r df ci ys) ->
    (forall e, ~ validator_raises E r e) ->
    turn_events_view s q
      (opening E q ++ status_lines r ++ chart_step_calls E r
       ++ [st_chat_message assistant; st_markdown (Result.response_text r)])%list.

End StatusBox.

Section ReplayEvents.

Variable E : Collaborators.

(** What an iteration of the replay does after the text of the message
    [m] when no turn is in flight (lines 63-97). *)
Definition replay_chart_events (m : ChatMessage) : list (Event E) :=
  match role m, chart_data m, chart_info m with
  | assistant, Some records, Some ci =>
      let data := Frame.from_records records in
      ((if is_debug_mode E then [debug_visualization data ci] else [])
       ++ call_validate_chart_inputs data (x_column ci) (y_columns ci)
       :: match validate_chart_inputs E data (x_column ci) (y_columns ci) with
          | Ret (true, ys, _) =>
              call_create_visualization data (x_column ci) ys (get_chart_type ci)
              :: match create_visualization E data (x_column ci) ys
                                            (get_chart_type ci) with
                 | Ret chart =>
                     call_display_visualization chart
                     :: match display_visualization E chart with
                        | Ret _ => []
                        | Raise e => inline_error E e data ci
                        end
                 | Raise e => inline_error E e data ci
                 end
          | Ret (false, _, msg) => [st_warning msg]
          | Raise e => inline_error E e data ci
          end)%list
  | _, _, _ => []
  end.

End ReplayEvents.

Section InterfaceVocabulary.

Variable E : Collaborators.
Variable P : Platform E.

(** The session the replay starts from when the script found the state
    [ss] and has the agents [a]: the stored values, and the defaults of
    lines 29-30 and 42-51 for the missing keys. *)
Definition session_of (ss : SessionState E) (a : Agent E * Agent E * Agent E)
  : Session E :=
  {| chat_history := setdefault (ss_chat_history ss) [welcome_message];
     is_processing := setdefault (ss_is_processing ss) false;
     shared_memory := setdefault (ss_shared_memory ss) (AgentMemory P);
     agents := a |}.

Definition is_init_call (ev : PageEvent E) : bool :=
  match ev with
  | call_initialize_agents => true
  | _ => false
  end.

(** The session state between two runs of a session whose agents are
    [a]: all keys present, no turn in flight, the greeting first. *)
Definition at_rest (a : Agent E * Agent E * Agent E) (ss : SessionState E) : Prop :=
  ss_is_processing ss = Some false /\
  ss_agents ss = Some a /\
  ss_shared_memory ss <> None /\
  exists h, ss_chat_history ss = Some (welcome_message :: h).

End InterfaceVocabulary.

Arguments is_init_call {E} ev.
Arguments at_rest {E} a ss.

(** ** A concrete platform *)

Module DemoPlatform.

(** A platform whose agents are built without trouble. *)
Definition P_ok (E : Collaborators) (a : Agent E) (mem : Memory E) (debug : bool)
  : Platform E :=
  {| setup_debug_mode := debug;
     AgentMemory := mem;
     initialize_agents := fun _ => Ret (a, a, a) |}.

(** A platform whose agents cannot be built. *)
Definition P_down (E : Collaborators) (mem : Memory E) : Platform E :=
  {| setup_debug_mode := false;
     AgentMemory := mem;
     initialize_agents := fun _ => Raise (Exception "no API key") |}.

(** An assistant message whose stored directive names a column its
    records lack. *)
Definition message_stale : ChatMessage :=
  set_chart (new_assistant_message Demo.result_C)
            (Frame.to_dict_records Demo.runs)
            {| x_column := "date"; y_columns := ["pace"]; chart_type := Some "line" |}.

Definition session_stale : Session Demo.E_B :=
  Build_Session Demo.E_B [Demo.welcome; text_message user Demo.ask; message_stale]
                false [Demo.ask] (tt, tt, tt).

Definition session_B_no_display : Session Demo.E_B_no_display :=
  Build_Session Demo.E_B_no_display
                [Demo.welcome; text_message user Demo.ask; Demo.message_B]
                false [Demo.ask] (tt, tt, tt).

(** Collaborators as in scenario B but outside and inside debug mode. *)
Definition E_B_debug : Collaborators :=
  Demo.env (fun _ => Ret Demo.result_B) true true.

End DemoPlatform.

(** * Properties *)

Section Properties.

Variable E : Collaborators.

#[local] Existing Instance Monad_M.
#[local] Existing Instance MonadExc_M.

(** ** How the monad runs *)

Lemma bind_ret {A B : Type} (m : M E A) (k : A -> M E B) (s : Session E) (a : A) :
  outcome (m s) = Ret a ->
  bind m k s = prepend E (events (m s)) (k a (final (m s))).
Proof.
  intros H. cbn. destruct (m s) as [o s' t]. cbn in H. subst o. reflexivity.
Qed.

Lemma catch_ret {A : Type} (m : M E A) (h : exn -> M E A) (s : Session E) (a : A) :
  outcome (m s) = Ret a -> catch m h s = m s.
Proof.
  intros H. cbn. destruct (m s) as [o s' t]. cbn in H. subst o. reflexivity.
Qed.

Lemma catch_raise {A : Type} (m : M E A) (h : exn -> M E A) (s : Session E) (e : exn) :
  outcome (m s) = Raise e ->
  catch m h s = prepend E (events (m s)) (h e (final (m s))).
Proof.
  intros H. cbn. destruct (m s) as [o s' t]. cbn in H. subst o. reflexivity.
Qed.

Lemma outcome_prepend {A : Type} (t : list (Event E)) (r : Run E A) :
  outcome (prepend E t r) = outcome r.
Proof. destruct r; reflexivity. Qed.

Lemma events_prepend {A : Type} (t : list (Event E)) (r : Run E A) :
  events (prepend E t r) = (t ++ events r)%list.
Proof. destruct r; reflexivity. Qed.


(** ** Blocks that leave the session alone *)

Lemma Stateless_ret {A : Type} (a : A) : Stateless (ret a : M E A).
Proof. exists (Ret a), []. reflexivity. Qed.

Lemma Stateless_emit (e : Event E) : Stateless (emit E e).
Proof. exists (Ret tt), [e]. reflexivity. Qed.

Lemma Stateless_call {A : Type} (e : Event E) (r : Outcome A) :
  Stateless (call E e r).
Proof. exists r, [e]. reflexivity. Qed.

Lemma Stateless_lift {A : Type} (r : Outcome A) : Stateless (lift E r).
Proof. exists r, []. reflexivity. Qed.

Lemma Stateless_bind {A B : Type} (m : M E A) (k : A -> M E B) :
  Stateless m -> (forall a, Stateless (k a)) -> Stateless (bind m k).
Proof.
  intros [o [t Hm]] Hk. destruct o as [a|e].
  - destruct (Hk a) as [o' [t' Hka]].
    exists o', (t ++ t')%list. intros s. cbn. rewrite Hm, Hka. reflexivity.
  - exists (Raise e), t. intros s. cbn. rewrite Hm. reflexivity.
Qed.

Lemma Stateless_catch {A : Type} (m : M E A) (h : exn -> M E A) :
  Stateless m -> (forall e, Stateless (h e)) -> Stateless (catch m h).
Proof.
  intros [o [t Hm]] Hh. destruct o as [a|e].
  - exists (Ret a), t. intros s. cbn. rewrite Hm. reflexivity.
  - destruct (Hh e) as [o' [t' Hhe]].
    exists o', (t ++ t')%list. intros s. cbn. rewrite Hm, Hhe. reflexivity.
Qed.

Lemma Stateless_when (b : bool) (m : M E unit) :
  Stateless m -> Stateless (when E b m).
Proof. destruct b; intros H; [exact H | apply Stateless_ret]. Qed.

Lemma Stateless_run {A : Type} (m : M E A) (s s' : Session E) :
  Stateless m ->
  m s' = {| outcome := outcome (m s); final := s'; events := events (m s) |}.
Proof. intros [o [t H]]. rewrite (H s), (H s'). reflexivity. Qed.

Ltac stateless :=
  repeat first
    [ apply Stateless_bind; [| intros ? ]
    | apply Stateless_catch; [| intros ? ]
    | apply Stateless_when
    | apply Stateless_ret
    | apply Stateless_emit
    | apply Stateless_call
    | apply Stateless_lift
    | match goal with
      | |- Stateless (match ?x with _ => _ end) => destruct x
      | |- Stateless (let '(_, _) := ?x in _) => destruct x
      end ].

Lemma Stateless_status_report (r : Result.t) : Stateless (status_report E r).
Proof. unfold status_report. stateless. Qed.

Lemma Stateless_attach_chart (r : Result.t) (m : ChatMessage) :
  Stateless (attach_chart E r m).
Proof.
  unfold attach_chart. stateless.
Qed.

Lemma Stateless_render_new (r : Result.t) (m : ChatMessage) :
  Stateless (render_new E r m).
Proof. unfold render_new. stateless. Qed.


(** ** Blocks that no exception leaves *)

Lemma Total_ret {A : Type} (a : A) : Total (ret a : M E A).
Proof. intros s. exists a. reflexivity. Qed.

Lemma Total_emit (e : Event E) : Total (emit E e).
Proof. intros s. exists tt. reflexivity. Qed.

Lemma Total_get_session : Total (get_session E).
Proof. intros s. exists s. reflexivity. Qed.

Lemma Total_set_is_processing (b : bool) : Total (set_is_processing E b).
Proof. intros s. exists tt. reflexivity. Qed.

Lemma Total_append_history (m : ChatMessage) : Total (append_history E m).
Proof. intros s. exists tt. reflexivity. Qed.

Lemma Total_bind {A B : Type} (m : M E A) (k : A -> M E B) :
  Total m -> (forall a, Total (k a)) -> Total (bind m k).
Proof.
  intros Hm Hk s. destruct (Hm s) as [a Ha].
  rewrite (bind_ret m k s a Ha), outcome_prepend. apply Hk.
Qed.

(** A [try] whose handler cannot raise never raises, whatever its
    body does. *)
Lemma Total_catch {A : Type} (m : M E A) (h : exn -> M E A) :
  (forall e, Total (h e)) -> Total (catch m h).
Proof.
  intros Hh s. destruct (outcome (m s)) as [a|e] eqn:Ho.
  - rewrite (catch_ret m h s a Ho). exists a. exact Ho.
  - rewrite (catch_raise m h s e Ho), outcome_prepend. apply Hh.
Qed.

Lemma Total_try_finally {A : Type} (m : M E A) (c : M E unit) :
  Total m -> Total c -> Total (try_finally E m c).
Proof.
  intros Hm Hc s. destruct (Hm s) as [a Ha]. unfold try_finally.
  destruct (m s) as [o s' t]. cbn in Ha. subst o.
  destruct (Hc s') as [u Hu]. destruct (c s') as [o' s'' t'].
  cbn in Hu. subst o'. exists a. reflexivity.
Qed.

Lemma Total_when (b : bool) (m : M E unit) : Total m -> Total (when E b m).
Proof. destruct b; intros H; [exact H | apply Total_ret]. Qed.

Lemma Total_unit (m : M E unit) (s : Session E) :
  Total m -> outcome (m s) = Ret tt.
Proof. intros H. destruct (H s) as [[] Hu]. exact Hu. Qed.

Ltac total :=
  repeat first
    [ apply Total_bind; [| intros ? ]
    | apply Total_catch; intros ?
    | apply Total_when
    | apply Total_ret
    | apply Total_emit
    | apply Total_get_session
    | apply Total_set_is_processing
    | apply Total_append_history
    | match goal with
      | |- Total (match ?x with _ => _ end) => destruct x
      | |- Total (let '(_, _) := ?x in _) => destruct x
      end ].

Lemma Total_status_report (r : Result.t) : Total (status_report E r).
Proof. unfold status_report. total. Qed.

Lemma Total_render_new (r : Result.t) (m : ChatMessage) :
  Total (render_new E r m).
Proof. unfold render_new. total. Qed.

Lemma Total_on_exception (e : exn) : Total (on_exception E e).
Proof. unfold on_exception. total. Qed.

Lemma Total_handle_query (user_query : option string) :
  Total (handle_query E user_query).
Proof.
  unfold handle_query. destruct user_query as [q|]; [|apply Total_ret].
  destruct (negb _); [apply Total_ret|].
  apply Total_try_finally.
  - apply Total_catch. intros e. apply Total_on_exception.
  - apply Total_set_is_processing.
Qed.


(** ** The shape of a turn *)

Lemma run_process_query_run (q : string) (s : Session E) :
  run_process_query E q s =
  {| outcome := fst (pipeline E s q);
     final := {| chat_history := chat_history s;
                 is_processing := is_processing s;
                 shared_memory := snd (pipeline E s q);
                 agents := agents s |};
     events := [call_process_query q] |}.
Proof.
  unfold run_process_query, pipeline.
  destruct (agents s) as [[a b] c].
  destruct (process_query E a b c q (shared_memory s)); reflexivity.
Qed.

Lemma on_exception_run (e : exn) (s : Session E) :
  on_exception E e s =
  {| outcome := Ret tt;
     final := {| chat_history := (chat_history s ++ [error_message e])%list;
                 is_processing := is_processing s;
                 shared_memory := shared_memory s;
                 agents := agents s |};
     events := error_events E e |}.
Proof.
  unfold on_exception, error_events. cbn. destruct (is_debug_mode E); reflexivity.
Qed.

Lemma turn_body_run (q : string) (s : Session E) :
  turn_body E q s =
  let s1 := {| chat_history := (chat_history s ++ [text_message user q])%list;
               is_processing := true;
               shared_memory := snd (pipeline E s q);
               agents := agents s |} in
  match fst (pipeline E s q) with
  | Raise e => {| outcome := Raise e; final := s1; events := opening E q |}
  | Ret r =>
      let attach := attach_chart E r (new_assistant_message r) s in
      match outcome attach with
      | Raise e =>
          {| outcome := Raise e; final := s1;
             events := (opening E q ++ events (status_report E r s)
                        ++ events attach)%list |}
      | Ret (r', m) =>
          {| outcome := Ret tt;
             final := after_turn E s q [text_message user q; m];
             events := (opening E q ++ events (status_report E r s)
                        ++ events attach ++ events (render_new E r' m s))%list |}
      end
  end.
Proof.
  unfold turn_body, status_block.
  cbn -[status_report attach_chart render_new run_process_query pipeline].
  rewrite run_process_query_run.
  match goal with
  | |- context [pipeline E ?s1 q] =>
      progress change (pipeline E s1 q) with (pipeline E s q)
  end.
  destruct (fst (pipeline E s q)) as [r|e]; [| reflexivity ].
  rewrite (Stateless_run (status_report E r) s _ (Stateless_status_report r)).
  rewrite (Total_unit _ s (Total_status_report r)).
  cbn -[status_report attach_chart render_new pipeline].
  rewrite (Stateless_run (attach_chart E r (new_assistant_message r)) s _
                         (Stateless_attach_chart r _)).
  destruct (outcome (attach_chart E r (new_assistant_message r) s))
    as [[r' m]|e]; cbn -[status_report attach_chart render_new pipeline].
  - rewrite (Stateless_run (render_new E r' m) s _ (Stateless_render_new r' m)).
    rewrite (Total_unit _ s (Total_render_new r' m)).
    cbn -[status_report attach_chart render_new pipeline].
    unfold after_turn. rewrite !app_nil_r, <- !app_assoc. reflexivity.
  - rewrite !app_nil_r. reflexivity.
Qed.

Lemma handle_query_view (q : string) (s : Session E) :
  Str.truthy (Some q) = true ->
  turn_view E s q (handle_query E (Some q) s).
Proof.
  intros Hq. unfold handle_query. rewrite Hq. cbn [negb].
  unfold try_finally.
  cbn -[turn_body on_exception pipeline].
  rewrite turn_body_run.
  cbn -[status_report attach_chart render_new on_exception pipeline].
  destruct (fst (pipeline E s q)) as [r|e] eqn:Hp.
  - destruct (outcome (attach_chart E r (new_assistant_message r) s))
      as [[r' m]|e] eqn:Ha.
    + cbn -[status_report attach_chart render_new on_exception pipeline].
      rewrite app_nil_r.
      apply (turn_completed E s q r r' m Hp Ha).
    + rewrite on_exception_run.
      cbn -[status_report attach_chart render_new error_events pipeline].
      rewrite app_nil_r, <- !app_assoc.
      apply (turn_validator_raised E s q r e Hp Ha).
  - rewrite on_exception_run.
    cbn -[error_events pipeline].
    rewrite app_nil_r, <- !app_assoc.
    apply (turn_pipeline_raised E s q e Hp).
Qed.


(** ** The chart step *)

Lemma coerce_dates_outcome (r : Result.t) (df : DataFrame) (x : string)
      (s : Session E) :
  outcome (coerce_dates E r df x s) =
  Ret (match Frame.get_column df x with
       | Ret col =>
           match to_datetime E col with
           | Ret col' => Result.with_data r (Frame.set_column df x col')
           | Raise _ => r
           end
       | Raise _ => r
       end).
Proof.
  unfold coerce_dates. cbn.
  destruct (Frame.get_column df x) as [col|e]; cbn; [|reflexivity].
  destruct (to_datetime E col) as [col'|e]; reflexivity.
Qed.

Lemma attach_chart_validated (r : Result.t) (m : ChatMessage) (s : Session E)
      (df : DataFrame) (ci : ChartInfo) (ys : list string) :
  chart_validated E r df ci ys ->
  outcome (attach_chart E r m s) =
  Ret (after_coercion E r df (x_column ci),
       set_chart m (Frame.to_dict_records df) (normalized ci ys)).
Proof.
  intros (Hc & Hd & He & msg & Hv).
  unfold attach_chart, after_coercion. rewrite Hc, Hd, He. cbn -[coerce_dates].
  rewrite Hv. cbn -[coerce_dates].
  destruct (names_a_date (x_column ci)); [|reflexivity].
  pose proof (coerce_dates_outcome r df (x_column ci) s) as Hco.
  destruct (coerce_dates E r df (x_column ci) s) as [o s' t].
  cbn in Hco. subst o. reflexivity.
Qed.

(** Without an accepted directive the message is left as it is, unless
    the validator raises. *)
Lemma attach_chart_otherwise (r : Result.t) (m : ChatMessage) (s : Session E) :
  (forall df ci ys, ~ chart_validated E r df ci ys) ->
  outcome (attach_chart E r m s) = Ret (r, m) \/
  exists e, outcome (attach_chart E r m s) = Raise e.
Proof.
  intros Hno. unfold attach_chart.
  destruct (Result.chart_info r) as [ci|] eqn:Hc; [|left; reflexivity].
  destruct (Result.data r) as [df|] eqn:Hd; [|left; reflexivity].
  destruct (Frame.empty df) eqn:He; [left; reflexivity|].
  cbn -[coerce_dates].
  destruct (validate_chart_inputs E df (x_column ci) (y_columns ci))
    as [[[ok ys] msg]|e] eqn:Hv; cbn -[coerce_dates].
  - destruct ok; [|left; reflexivity].
    exfalso. apply (Hno df ci ys).
    split; [exact Hc|]. split; [exact Hd|]. split; [exact He|].
    exists msg. exact Hv.
  - right. exists e. reflexivity.
Qed.

Lemma chart_validated_dec (r : Result.t) :
  (exists df ci ys, chart_validated E r df ci ys) \/
  (forall df ci ys, ~ chart_validated E r df ci ys).
Proof.
  unfold chart_validated.
  destruct (Result.chart_info r) as [ci|]; [|right; intros ? ? ? (H & _); discriminate].
  destruct (Result.data r) as [df|];
    [|right; intros ? ? ? (_ & H & _); discriminate].
  destruct (Frame.empty df) eqn:He;
    [right; intros ? ? ? (_ & H & H' & _); congruence|].
  destruct (validate_chart_inputs E df (x_column ci) (y_columns ci))
    as [[[[|] ys] msg]|e] eqn:Hv.
  - left. exists df, ci, ys.
    split; [reflexivity|]. split; [reflexivity|]. split; [exact He|].
    exists msg. exact Hv.
  - right. intros df' ci' ys' (H1 & H2 & _ & msg' & H3).
    injection H1 as <-. injection H2 as <-. congruence.
  - right. intros df' ci' ys' (H1 & H2 & _ & msg' & H3).
    injection H1 as <-. injection H2 as <-. congruence.
Qed.


Lemma attach_chart_raises (r : Result.t) (m : ChatMessage) (s : Session E)
      (e : exn) :
  validator_raises E r e -> outcome (attach_chart E r m s) = Raise e.
Proof.
  intros (ci & df & Hc & Hd & He & Hv).
  unfold attach_chart. rewrite Hc, Hd, He. cbn. rewrite Hv. reflexivity.
Qed.

Lemma attach_chart_rejects (r : Result.t) (m : ChatMessage) (s : Session E)
      (msg : string) :
  validator_rejects E r msg -> outcome (attach_chart E r m s) = Ret (r, m).
Proof.
  intros (ci & df & ys & Hc & Hd & He & Hv).
  unfold attach_chart. rewrite Hc, Hd, He. cbn. rewrite Hv. reflexivity.
Qed.

(** ** Runs by case *)

Lemma turn_when_pipeline_raises (q : string) (s : Session E) (e : exn) :
  Str.truthy (Some q) = true ->
  fst (pipeline E s q) = Raise e ->
  handle_query E (Some q) s =
  {| outcome := Ret tt;
     final := after_turn E s q [text_message user q; error_message e];
     events := (opening E q ++ error_events E e)%list |}.
Proof.
  intros Hq Hp.
  destruct (handle_query_view q s Hq) as [e' Hp' | r e' Hp' Ha | r r' m Hp' Ha];
    congruence.
Qed.

Lemma turn_when_attach_raises (q : string) (s : Session E) (r : Result.t)
      (e : exn) :
  Str.truthy (Some q) = true ->
  fst (pipeline E s q) = Ret r ->
  outcome (attach_chart E r (new_assistant_message r) s) = Raise e ->
  handle_query E (Some q) s =
  {| outcome := Ret tt;
     final := after_turn E s q [text_message user q; error_message e];
     events := (opening E q
                ++ events (status_report E r s)
                ++ events (attach_chart E r (new_assistant_message r) s)
                ++ error_events E e)%list |}.
Proof.
  intros Hq Hp Ha.
  destruct (handle_query_view q s Hq) as [e' Hp' | r0 e' Hp' Ha' | r0 r' m Hp' Ha'];
    congruence.
Qed.

Lemma turn_when_attach_returns (q : string) (s : Session E) (r r' : Result.t)
      (m : ChatMessage) :
  Str.truthy (Some q) = true ->
  fst (pipeline E s q) = Ret r ->
  outcome (attach_chart E r (new_assistant_message r) s) = Ret (r', m) ->
  handle_query E (Some q) s =
  {| outcome := Ret tt;
     final := after_turn E s q [text_message user q; m];
     events := (opening E q
                ++ events (status_report E r s)
                ++ events (attach_chart E r (new_assistant_message r) s)
                ++ events (render_new E r' m s))%list |}.
Proof.
  intros Hq Hp Ha.
  destruct (handle_query_view q s Hq) as [e' Hp' | r0 e' Hp' Ha' | r0 r0' m0 Hp' Ha'];
    congruence.
Qed.

(** ** The history *)

Lemma skipn_exact {A : Type} (l l' : list A) :
  skipn (length l) (l ++ l') = l'.
Proof. induction l as [|a l IH]; [reflexivity | exact IH]. Qed.

Lemma appended_after_turn {A : Type} (s : Session E) (q : string)
      (added : list ChatMessage) (o : Outcome A) (t : list (Event E)) :
  appended s {| outcome := o; final := after_turn E s q added; events := t |}
  = added.
Proof. unfold appended. cbn. apply skipn_exact. Qed.

Lemma handle_query_falsy (user_query : option string) (s : Session E) :
  Str.truthy user_query = false ->
  handle_query E user_query s = {| outcome := Ret tt; final := s; events := [] |}.
Proof.
  intros Hq. unfold handle_query. destruct user_query as [q|]; [|reflexivity].
  rewrite Hq. reflexivity.
Qed.

Lemma appended_nothing {A : Type} (s : Session E) (o : Outcome A)
      (t : list (Event E)) :
  appended s {| outcome := o; final := s; events := t |} = [].
Proof. unfold appended. cbn. apply skipn_all. Qed.

(** The chart step returns the message as it got it or with both chart
    fields set. *)
Lemma attach_chart_message (r r' : Result.t) (m m' : ChatMessage) (s : Session E) :
  outcome (attach_chart E r m s) = Ret (r', m') ->
  m' = m \/ exists records ci, m' = set_chart m records ci.
Proof.
  intros Ha.
  destruct (chart_validated_dec r) as [(df & ci & ys & Hv) | Hno].
  - rewrite (attach_chart_validated r m s df ci ys Hv) in Ha.
    injection Ha as <- <-. right. eauto.
  - destruct (attach_chart_otherwise r m s Hno) as [H | [e H]];
      rewrite H in Ha; [|discriminate].
    injection Ha as <- <-. left. reflexivity.
Qed.

(** C1. The new assistant message carries chart fields exactly when the
    pipeline returned a chart directive and a non-empty table and the
    validator accepted them; then it carries the records of the table
    and the directive with the validated y-columns.  In every other
    case, the error path included, the message persisted for the turn
    has neither [chart_data] nor [chart_info]. *)
Theorem C1_chart_fields_only_when_validated (q : string) (s : Session E) :
  Str.truthy (Some q) = true ->
  exists m,
    appended s (handle_query E (Some q) s) = [text_message user q; m] /\
    role m = assistant /\
    ((exists r df ci ys,
         fst (pipeline E s q) = Ret r /\
         chart_validated E r df ci ys /\
         chart_data m = Some (Frame.to_dict_records df) /\
         chart_info m = Some (normalized ci ys))
     \/
     ((forall r df ci ys,
          fst (pipeline E s q) = Ret r -> ~ chart_validated E r df ci ys) /\
      chart_data m = None /\
      chart_info m = None)).
Proof.
  intros Hq.
  destruct (handle_query_view q s Hq) as [e Hp | r e Hp Ha | r r' m Hp Ha].
  - exists (error_message e). rewrite appended_after_turn.
    split; [reflexivity|]. split; [reflexivity|].
    right. split; [|split; reflexivity].
    intros r df ci ys Hr. congruence.
  - exists (error_message e). rewrite appended_after_turn.
    split; [reflexivity|]. split; [reflexivity|].
    right. split; [|split; reflexivity].
    intros r0 df ci ys Hr Hv. assert (r0 = r) by congruence. subst r0.
    rewrite (attach_chart_validated r _ s df ci ys Hv) in Ha. discriminate.
  - exists m. rewrite appended_after_turn. split; [reflexivity|].
    destruct (chart_validated_dec r) as [(df & ci & ys & Hv) | Hno].
    + rewrite (attach_chart_validated r _ s df ci ys Hv) in Ha.
      injection Ha as <- <-. split; [reflexivity|].
      left. exists r, df, ci, ys.
      split; [exact Hp|]. split; [exact Hv|]. split; reflexivity.
    + destruct (attach_chart_otherwise r (new_assistant_message r) s Hno)
        as [H | [e H]]; rewrite H in Ha; [|discriminate].
      injection Ha as <- <-. split; [reflexivity|].
      right. split; [|split; reflexivity].
      intros r0 df ci ys Hr. assert (r0 = r) by congruence. subst r0. apply Hno.
Qed.


(** C2. Every message a call of [handle_query] appends to the history,
    the user message, the assistant message and the error message of
    the [except] branch, has [chart_data] if and only if it has
    [chart_info]. *)
Theorem C2_chart_data_iff_chart_info
        (user_query : option string) (s : Session E) (m : ChatMessage) :
  In m (appended s (handle_query E user_query s)) ->
  (chart_data m <> None <-> chart_info m <> None).
Proof.
  destruct (Str.truthy user_query) eqn:Hq.
  - destruct user_query as [q|]; [|discriminate].
    destruct (handle_query_view q s Hq) as [e Hp | r e Hp Ha | r r' m' Hp Ha];
      rewrite appended_after_turn; cbn [In];
      intros [<- | [<- | []]]; cbn; try tauto.
    destruct (attach_chart_message _ _ _ _ _ Ha) as [-> | (records & ci & ->)];
      cbn; [tauto|]. split; intros _; discriminate.
  - rewrite (handle_query_falsy _ s Hq), appended_nothing. intros [].
Qed.

(** C9. Whatever the query and the run, the history after
    [handle_query] is the history before it followed by what the call
    appended: nothing for an empty query, else the user message and one
    assistant message, which on the exception path is the error
    message.  No earlier entry is removed, moved or changed. *)
Theorem C9_chat_history_append_only (user_query : option string) (s : Session E) :
  exists added,
    chat_history (final (handle_query E user_query s))
    = (chat_history s ++ added)%list /\
    (added = [] \/
     exists q m, user_query = Some q /\
                 added = [text_message user q; m] /\ role m = assistant).
Proof.
  destruct (Str.truthy user_query) eqn:Hq.
  - destruct user_query as [q|]; [|discriminate].
    destruct (handle_query_view q s Hq) as [e Hp | r e Hp Ha | r r' m Hp Ha].
    + exists [text_message user q; error_message e].
      split; [reflexivity|]. right. exists q, (error_message e). auto.
    + exists [text_message user q; error_message e].
      split; [reflexivity|]. right. exists q, (error_message e). auto.
    + exists [text_message user q; m].
      split; [reflexivity|]. right. exists q, m.
      split; [reflexivity|]. split; [reflexivity|].
      destruct (attach_chart_message _ _ _ _ _ Ha) as [-> | (records & ci & ->)];
        reflexivity.
  - exists []. rewrite (handle_query_falsy _ s Hq). cbn.
    rewrite app_nil_r. auto.
Qed.

(** C10. On a falsy query, [None] or the empty string, [handle_query]
    returns at once: it emits nothing, so the pipeline is not called,
    and the session (history, flag, shared memory, agents) is the one
    it started from. *)
Theorem C10_empty_query_changes_nothing
        (user_query : option string) (s : Session E) :
  Str.truthy user_query = false ->
  handle_query E user_query s = {| outcome := Ret tt; final := s; events := [] |}.
Proof. exact (handle_query_falsy user_query s). Qed.


(** ** What a block shows *)

Lemma Emits_ret (P : Event E -> bool) {A : Type} (a : A) :
  Emits P (ret a : M E A).
Proof. intros s. reflexivity. Qed.

Lemma Emits_emit (P : Event E -> bool) (e : Event E) :
  P e = true -> Emits P (emit E e).
Proof. intros H s. cbn. rewrite H. reflexivity. Qed.

Lemma Emits_call (P : Event E -> bool) {A : Type} (e : Event E) (r : Outcome A) :
  P e = true -> Emits P (call E e r).
Proof. intros H s. cbn. rewrite H. reflexivity. Qed.

Lemma Emits_lift (P : Event E -> bool) {A : Type} (r : Outcome A) :
  Emits P (lift E r).
Proof. intros s. reflexivity. Qed.

Lemma Emits_bind (P : Event E -> bool) {A B : Type} (m : M E A) (k : A -> M E B) :
  Emits P m -> (forall a, Emits P (k a)) -> Emits P (bind m k).
Proof.
  intros Hm Hk s. specialize (Hm s). cbn.
  destruct (m s) as [[a|e] s' t]; cbn in *; [|exact Hm].
  rewrite events_prepend, forallb_app, Hm. apply Hk.
Qed.

Lemma Emits_catch (P : Event E -> bool) {A : Type} (m : M E A) (h : exn -> M E A) :
  Emits P m -> (forall e, Emits P (h e)) -> Emits P (catch m h).
Proof.
  intros Hm Hh s. specialize (Hm s). cbn.
  destruct (m s) as [[a|e] s' t]; cbn in *; [exact Hm|].
  rewrite events_prepend, forallb_app, Hm. apply Hh.
Qed.

Lemma Emits_when (P : Event E -> bool) (b : bool) (m : M E unit) :
  Emits P m -> Emits P (when E b m).
Proof. destruct b; intros H; [exact H | apply Emits_ret]. Qed.

Ltac emits :=
  repeat first
    [ apply Emits_bind; [| intros ? ]
    | apply Emits_catch; [| intros ? ]
    | apply Emits_when
    | apply Emits_ret
    | apply Emits_lift
    | apply Emits_emit; reflexivity
    | apply Emits_call; reflexivity
    | match goal with
      | |- Emits _ (match ?x with _ => _ end) => destruct x
      | |- Emits _ (let '(_, _) := ?x in _) => destruct x
      end ].

Lemma status_report_quiet (r : Result.t) : Emits quiet (status_report E r).
Proof. unfold status_report. emits. Qed.

Lemma attach_chart_quiet (r : Result.t) (m : ChatMessage) :
  Emits quiet (attach_chart E r m).
Proof. unfold attach_chart, coerce_dates. emits. Qed.

Lemma attach_chart_not_success (r : Result.t) (m : ChatMessage) :
  Emits not_success (attach_chart E r m).
Proof. unfold attach_chart, coerce_dates. emits. Qed.

Lemma attach_chart_not_sql (r : Result.t) (m : ChatMessage) :
  Emits not_sql (attach_chart E r m).
Proof. unfold attach_chart, coerce_dates. emits. Qed.

Lemma render_new_not_success (r : Result.t) (m : ChatMessage) :
  Emits not_success (render_new E r m).
Proof. unfold render_new. emits. Qed.

Lemma render_new_not_sql (r : Result.t) (m : ChatMessage) :
  Emits not_sql (render_new E r m).
Proof. unfold render_new. emits. Qed.


Lemma render_new_plain (r : Result.t) (m : ChatMessage) (s : Session E) :
  chart_data m = None ->
  events (render_new E r m s)
  = [st_chat_message assistant; st_markdown (Result.response_text r)].
Proof. intros H. unfold render_new. rewrite H. reflexivity. Qed.

Lemma render_new_shows_text (r : Result.t) (m : ChatMessage) (s : Session E) :
  In (st_markdown (Result.response_text r)) (events (render_new E r m s)).
Proof.
  unfold render_new. cbn. rewrite !events_prepend. cbn. auto.
Qed.

Lemma render_new_shows_error (r : Result.t) (m : ChatMessage) (s : Session E)
      (e : exn) :
  render_raises E m e ->
  In (st_error ("Error displaying visualization: " ++ exn_msg e))
     (events (render_new E r m s)).
Proof.
  intros (records & ci & Hd & Hi & H). unfold render_new. rewrite Hd, Hi.
  cbn in H. cbn.
  destruct H as [H | (chart & H & H')]; rewrite H; cbn.
  - destruct (is_debug_mode E); cbn; auto.
  - rewrite H'. cbn. destruct (is_debug_mode E); cbn; auto 6.
Qed.

Lemma error_events_show (e : exn) :
  In (st_error ("Error: " ++ exn_msg e)) (error_events E e).
Proof. unfold error_events. cbn. auto. Qed.

Lemma opening_quiet (q : string) : forallb quiet (opening E q) = true.
Proof. reflexivity. Qed.



(** ** The status box *)

Lemma status_report_failed (r : Result.t) (s : Session E) :
  in_sql_viz (query_type (Result.classification r)) = true ->
  Result.success r = false ->
  events (status_report E r s) =
  (status_write ("Query type: " ++ QueryType_str (query_type (Result.classification r)))
   :: (if Str.truthy (Result.sql_query r)
       then match Result.sql_query r with
            | Some sql => [status_write "SQL Query:"; status_code sql]
            | None => []
            end
       else [])
   ++ [status_update "Error executing query" errored])%list.
Proof.
  intros Hc Hs. unfold status_report. rewrite Hc, Hs.
  destruct (Result.sql_query r) as [sql|]; [|reflexivity].
  cbn -[QueryType_str]. destruct (negb (sql =? EmptyString)); reflexivity.
Qed.

Lemma status_report_other (r : Result.t) (s : Session E) :
  in_sql_viz (query_type (Result.classification r)) = false ->
  events (status_report E r s) =
  [status_write ("Query type: " ++ QueryType_str (query_type (Result.classification r)));
   status_update "Query processed" complete].
Proof. intros Hc. unfold status_report. rewrite Hc. reflexivity. Qed.

Lemma opening_not_success (q : string) : forallb not_success (opening E q) = true.
Proof. reflexivity. Qed.

Lemma opening_not_sql (q : string) : forallb not_sql (opening E q) = true.
Proof. reflexivity. Qed.

Lemma error_events_not_success (e : exn) :
  forallb not_success (error_events E e) = true.
Proof. unfold error_events. destruct (is_debug_mode E); reflexivity. Qed.

Lemma error_events_not_sql (e : exn) :
  forallb not_sql (error_events E e) = true.
Proof. unfold error_events. destruct (is_debug_mode E); reflexivity. Qed.

Lemma status_report_failed_not_success (r : Result.t) (s : Session E) :
  in_sql_viz (query_type (Result.classification r)) = true ->
  Result.success r = false ->
  forallb not_success (events (status_report E r s)) = true.
Proof.
  intros Hc Hs. rewrite (status_report_failed r s Hc Hs).
  destruct (Result.sql_query r) as [sql|]; [|reflexivity].
  destruct (Str.truthy (Some sql)); reflexivity.
Qed.

Lemma status_report_other_not_sql (r : Result.t) (s : Session E) :
  in_sql_viz (query_type (Result.classification r)) = false ->
  forallb not_sql (events (status_report E r s)) = true.
Proof. intros Hc. rewrite (status_report_other r s Hc). reflexivity. Qed.

Lemma attach_chart_outcome (r : Result.t) (m : ChatMessage) (s : Session E) :
  (exists e, validator_raises E r e /\ outcome (attach_chart E r m s) = Raise e)
  \/ exists r' m', outcome (attach_chart E r m s) = Ret (r', m') /\
                   text m' = text m /\ role m' = role m /\
                   sql_query m' = sql_query m.
Proof.
  assert (forall r' m', outcome (attach_chart E r m s) = Ret (r', m') ->
                        text m' = text m /\ role m' = role m /\
                        sql_query m' = sql_query m) as Hfields.
  { intros r' m' Ha.
    destruct (attach_chart_message _ _ _ _ _ Ha) as [-> | (records & ci & ->)];
      auto. }
  destruct (outcome (attach_chart E r m s)) as [[r' m']|e] eqn:Ha;
    [right; exists r', m'; split; [reflexivity | exact (Hfields r' m' eq_refl)]|].
  left. exists e. split; [|reflexivity].
  clear Hfields. revert Ha. unfold attach_chart, validator_raises.
  destruct (Result.chart_info r) as [ci|] eqn:Hc; [|discriminate].
  destruct (Result.data r) as [df|] eqn:Hd; [|discriminate].
  destruct (Frame.empty df) eqn:He; [discriminate|].
  cbn -[coerce_dates].
  destruct (validate_chart_inputs E df (x_column ci) (y_columns ci))
    as [[[ok ys] msg]|e'] eqn:Hv; cbn -[coerce_dates].
  - destruct ok; [|discriminate].
    destruct (names_a_date (x_column ci)); [|discriminate].
    pose proof (coerce_dates_outcome r df (x_column ci) s) as Hco.
    destruct (coerce_dates E r df (x_column ci) s) as [o s' t].
    cbn in Hco. subst o. discriminate.
  - intros [= <-]. exists ci, df. auto.
Qed.


Lemma forallb_negb_existsb {A : Type} (f : A -> bool) (l : list A) :
  forallb (fun x => negb (f x)) l = true -> existsb f l = false.
Proof.
  induction l as [|a l IH]; cbn; [reflexivity|].
  destruct (f a); cbn; [discriminate | exact IH].
Qed.



(** C7. When the builder or the display raises during the immediate
    render of the new assistant message, the exception does not leave
    the render: an inline error with its message is shown,
    [handle_query] ends normally, and the assistant message appended
    before the render, chart fields included, is still the last entry
    of the history. *)
Theorem C7_render_exception_is_inline
        (q : string) (s : Session E) (r : Result.t) (df : DataFrame)
        (ci : ChartInfo) (ys : list string) (e : exn) :
  Str.truthy (Some q) = true ->
  fst (pipeline E s q) = Ret r ->
  chart_validated E r df ci ys ->
  let m := set_chart (new_assistant_message r)
                     (Frame.to_dict_records df) (normalized ci ys) in
  render_raises E m e ->
  let run := handle_query E (Some q) s in
  outcome run = Ret tt /\
  In (st_error ("Error displaying visualization: " ++ exn_msg e)) (events run) /\
  appended s run = [text_message user q; m] /\
  is_processing (final run) = false.
Proof.
  intros Hq Hp Hv m Hr run. subst run m.
  rewrite (turn_when_attach_returns q s r _ _ Hq Hp
             (attach_chart_validated r _ s df ci ys Hv)).
  split; [reflexivity|]. split.
  - cbn [events]. rewrite !in_app_iff. do 3 right.
    apply render_new_shows_error. exact Hr.
  - split; [apply appended_after_turn | reflexivity].
Qed.


(** ** The replay of the history *)

Lemma replay_message_processing (m : ChatMessage) (s : Session E) :
  is_processing s = true ->
  replay_message E m s = {| outcome := Ret tt; final := s; events := bubble E m |}.
Proof. intros H. unfold replay_message. cbn. rewrite H. reflexivity. Qed.

(** An iteration shows the bubble first, ends normally and leaves the
    session as it was. *)
Lemma replay_message_run (m : ChatMessage) (s : Session E) :
  exists t,
    replay_message E m s
    = {| outcome := Ret tt; final := s; events := (bubble E m ++ t)%list |}.
Proof.
  unfold replay_message. cbn.
  destruct (is_processing s); [exists []; reflexivity|].
  destruct (role m); [exists []; reflexivity|].
  destruct (chart_data m) as [records|]; [|exists []; reflexivity].
  destruct (chart_info m) as [ci|]; [|exists []; reflexivity].
  cbn.
  destruct (is_debug_mode E); cbn;
    destruct (validate_chart_inputs E _ _ _) as [[[[|] vy] msg]|e]; cbn;
    try (eexists; reflexivity);
    destruct (create_visualization E _ _ _ _) as [c|e]; cbn;
    try (eexists; reflexivity);
    destruct (display_visualization E c) as [[]|e]; cbn;
    eexists; reflexivity.
Qed.

Lemma for_each_replay (l : list ChatMessage) (s : Session E) :
  for_each E (replay_message E) l s =
  {| outcome := Ret tt; final := s;
     events := flat_map (fun m => events (replay_message E m s)) l |}.
Proof.
  induction l as [|m l IH]; [reflexivity|].
  cbn [for_each flat_map].
  destruct (replay_message_run m s) as [t Hm].
  cbn -[replay_message]. rewrite Hm. cbn -[replay_message]. rewrite IH.
  reflexivity.
Qed.

Lemma replay_history_run (s : Session E) :
  replay_history E s =
  {| outcome := Ret tt; final := s;
     events := flat_map (fun m => events (replay_message E m s)) (chat_history s) |}.
Proof.
  unfold replay_history. cbn -[for_each replay_message].
  rewrite for_each_replay. reflexivity.
Qed.

Lemma flat_map_bubble_no_chart_work (l : list ChatMessage) :
  forallb no_chart_work (flat_map (bubble E) l) = true.
Proof. induction l as [|m l IH]; [reflexivity | exact IH]. Qed.

(** What an iteration does for an assistant message with both chart
    fields when no turn is in flight. *)
Lemma replay_message_chart (m : ChatMessage) (s : Session E)
      (records : list Record_) (ci : ChartInfo) :
  is_processing s = false ->
  role m = assistant ->
  chart_data m = Some records ->
  chart_info m = Some ci ->
  let data := Frame.from_records records in
  let t := events (replay_message E m s) in
  In (call_validate_chart_inputs data (x_column ci) (y_columns ci)) t /\
  forall vy msg chart,
    validate_chart_inputs E data (x_column ci) (y_columns ci) = Ret (true, vy, msg) ->
    create_visualization E data (x_column ci) vy (get_chart_type ci) = Ret chart ->
    In (call_create_visualization data (x_column ci) vy (get_chart_type ci)) t /\
    In (call_display_visualization chart) t.
Proof.
  intros Hp Hr Hd Hi data t. subst t data.
  unfold replay_message. cbn. rewrite Hp, Hr, Hd, Hi. cbn. split.
  - destruct (is_debug_mode E); cbn;
      destruct (validate_chart_inputs E _ _ _) as [[[[|] vy] msg]|e]; cbn;
      try (destruct (create_visualization E _ _ _ _) as [c|e]; cbn;
           try destruct (display_visualization E c) as [[]|e]; cbn);
      auto 6.
  - intros vy msg chart Hv Hc.
    destruct (is_debug_mode E); cbn; rewrite Hv; cbn; rewrite Hc; cbn;
      destruct (display_visualization E chart) as [[]|e]; cbn; auto 8.
Qed.

(** C8. The replay of the history shows the text of every stored
    message, ends normally and leaves the session as it is.  While
    [is_processing] is true it shows nothing else: no chart is
    validated, built or displayed.  When [is_processing] is false,
    every assistant message with both [chart_data] and [chart_info] has
    its directive validated again on the table rebuilt from its
    records, and, when the validator accepts and the builder returns a
    chart, the chart is built from the kept y-columns and displayed. *)
Theorem C8_replay_renders_charts_unless_processing (s : Session E) :
  let run := replay_history E s in
  outcome run = Ret tt /\
  final run = s /\
  (forall m, In m (chat_history s) -> In (st_markdown (text m)) (events run)) /\
  (is_processing s = true ->
   events run = flat_map (bubble E) (chat_history s) /\
   forallb no_chart_work (events run) = true) /\
  (is_processing s = false ->
   forall m records ci,
     In m (chat_history s) ->
     role m = assistant ->
     chart_data m = Some records ->
     chart_info m = Some ci ->
     let data := Frame.from_records records in
     In (call_validate_chart_inputs data (x_column ci) (y_columns ci)) (events run) /\
     forall vy msg chart,
       validate_chart_inputs E data (x_column ci) (y_columns ci)
       = Ret (true, vy, msg) ->
       create_visualization E data (x_column ci) vy (get_chart_type ci)
       = Ret chart ->
       In (call_create_visualization data (x_column ci) vy (get_chart_type ci))
          (events run) /\
       In (call_display_visualization chart) (events run)).
Proof.
  intros run. subst run. rewrite replay_history_run. cbn [outcome final events].
  split; [reflexivity|]. split; [reflexivity|]. split.
  { intros m Hm. apply in_flat_map. exists m. split; [exact Hm|].
    destruct (replay_message_run m s) as [t ->]. cbn. auto. }
  split.
  { intros Hp.
    assert (flat_map (fun m => events (replay_message E m s)) (chat_history s)
            = flat_map (bubble E) (chat_history s)) as ->.
    { apply flat_map_ext. intros m. rewrite (replay_message_processing m s Hp).
      reflexivity. }
    split; [reflexivity | apply flat_map_bubble_no_chart_work]. }
  intros Hp m records ci Hm Hr Hd Hi.
  destruct (replay_message_chart m s records ci Hp Hr Hd Hi) as [Hval Hshow].
  split.
  - apply in_flat_map. exists m. auto.
  - intros vy msg chart Hv Hc. destruct (Hshow vy msg chart Hv Hc) as [H1 H2].
    split; apply in_flat_map; exists m; auto.
Qed.


(** * Further properties of the controller *)

(** ** A turn, event by event *)

Ltac by_cases :=
  repeat match goal with
         | |- context [match ?x with _ => _ end] => destruct x eqn:?
         end.

Lemma attach_chart_events (r : Result.t) (m : ChatMessage) (s : Session E) :
  events (attach_chart E r m s) = chart_step_calls E r.
Proof.
  unfold attach_chart, chart_step_calls.
  destruct (Result.chart_info r) as [ci|]; [|reflexivity].
  destruct (Result.data r) as [df|]; [|reflexivity].
  destruct (Frame.empty df); [reflexivity|].
  cbn -[coerce_dates].
  destruct (validate_chart_inputs E df (x_column ci) (y_columns ci))
    as [[[[|] ys] msg]|e]; cbn -[coerce_dates]; try reflexivity.
  destruct (names_a_date (x_column ci)); [|reflexivity].
  unfold coerce_dates. cbn.
  destruct (Frame.get_column df (x_column ci)) as [col|e]; cbn; [|reflexivity].
  destruct (to_datetime E col) as [col'|e]; reflexivity.
Qed.

Lemma render_new_events (r : Result.t) (m : ChatMessage) (s : Session E) :
  events (render_new E r m s) =
  (st_chat_message assistant :: st_markdown (Result.response_text r)
   :: chart_render_events E m)%list.
Proof.
  unfold render_new, chart_render_events, inline_error.
  destruct (chart_data m) as [records|]; [|reflexivity].
  destruct (chart_info m) as [ci|]; [|reflexivity].
  cbn.
  destruct (create_visualization E _ _ _ _) as [c|e]; cbn.
  - destruct (display_visualization E c) as [[]|e]; cbn; [reflexivity|].
    destruct (is_debug_mode E); reflexivity.
  - destruct (is_debug_mode E); reflexivity.
Qed.

Lemma status_report_events (r : Result.t) (s : Session E) :
  events (status_report E r s) = status_lines E r.
Proof.
  unfold status_report, status_lines.
  destruct (in_sql_viz (query_type (Result.classification r))); [|reflexivity].
  destruct (Result.sql_query r) as [sql|];
    [destruct (Str.truthy (Some sql)) eqn:Hsql|];
    destruct (Result.success r);
    try (destruct (Result.data r) as [df|]);
    try (destruct (is_debug_mode E) eqn:Hd);
    try (destruct (Result.chart_info r) as [ci|]);
    cbn -[QueryType_str Str.of_nat Str.truthy];
    rewrite ?Hsql, ?Hd; reflexivity.
Qed.

Lemma after_coercion_text (r : Result.t) (df : DataFrame) (x : string) :
  Result.response_text (after_coercion E r df x) = Result.response_text r.
Proof. unfold after_coercion. by_cases; reflexivity. Qed.

Lemma handle_query_events_view (q : string) (s : Session E) :
  Str.truthy (Some q) = true ->
  turn_events_view E s q (events (handle_query E (Some q) s)).
Proof.
  intros Hq.
  destruct (fst (pipeline E s q)) as [r|e] eqn:Hp.
  - destruct (chart_validated_dec r) as [(df & ci & ys & Hv) | Hno].
    + rewrite (turn_when_attach_returns q s r _ _ Hq Hp
                 (attach_chart_validated r _ s df ci ys Hv)).
      cbn [events].
      rewrite status_report_events, attach_chart_events, render_new_events,
        after_coercion_text.
      apply (events_chart E s q r df ci ys Hp Hv).
    + destruct (attach_chart_outcome r (new_assistant_message r) s)
        as [(e & Hr & Ha) | (r' & m' & Ha & _)].
      * rewrite (turn_when_attach_raises q s r e Hq Hp Ha). cbn [events].
        rewrite status_report_events, attach_chart_events.
        apply (events_validator_raised E s q r e Hp Hr).
      * destruct (attach_chart_otherwise r (new_assistant_message r) s Hno)
          as [H | [e H]]; [|congruence].
        rewrite (turn_when_attach_returns q s r _ _ Hq Hp H). cbn [events].
        rewrite status_report_events, attach_chart_events, render_new_events.
        cbn.
        assert (forall e, ~ validator_raises E r e) as Hnr.
        { intros e Hr. rewrite (attach_chart_raises r _ s e Hr) in H.
          discriminate. }
        apply (events_plain E s q r Hp Hno Hnr).
  - rewrite (turn_when_pipeline_raises q s e Hq Hp).
    apply (events_pipeline_raised E s q e Hp).
Qed.


Lemma filter_none {A : Type} (f : A -> bool) (l : list A) :
  forallb (fun x => negb (f x)) l = true -> filter f l = [].
Proof.
  induction l as [|a l IH]; cbn; [reflexivity|].
  destruct (f a); cbn; [discriminate | exact IH].
Qed.

Ltac pieces :=
  unfold status_lines, chart_step_calls, chart_render_events, error_events,
    inline_error, opening, closing_status;
  by_cases; reflexivity.

Lemma chart_step_calls_validated (r : Result.t) (df : DataFrame) (ci : ChartInfo)
      (ys : list string) :
  chart_validated E r df ci ys ->
  chart_step_calls E r =
  (call_validate_chart_inputs df (x_column ci) (y_columns ci)
   :: if names_a_date (x_column ci) then
        match Frame.get_column df (x_column ci) with
        | Ret col => [call_to_datetime col]
        | Raise _ => []
        end
      else [])%list.
Proof.
  intros (Hc & Hd & He & msg & Hv). unfold chart_step_calls.
  rewrite Hc, Hd, He, Hv. reflexivity.
Qed.

Lemma chart_step_calls_otherwise (r : Result.t) :
  (forall df ci ys, ~ chart_validated E r df ci ys) ->
  forallb (fun ev => negb (is_date_parse ev)) (chart_step_calls E r) = true.
Proof.
  intros Hno. unfold chart_step_calls.
  destruct (Result.chart_info r) as [ci|] eqn:Hc; [|reflexivity].
  destruct (Result.data r) as [df|] eqn:Hd; [|reflexivity].
  destruct (Frame.empty df) eqn:He; [reflexivity|].
  destruct (validate_chart_inputs E df (x_column ci) (y_columns ci))
    as [[[[|] ys] msg]|e] eqn:Hv; try reflexivity.
  exfalso. apply (Hno df ci ys).
  split; [exact Hc|]. split; [exact Hd|]. split; [exact He|].
  exists msg. exact Hv.
Qed.

(** X2. In a turn on a non-empty query the pipeline is called exactly
    once, with the text of the query, after the user bubble and the
    status box were opened: nothing that follows calls it again. *)
Theorem X2_one_pipeline_call (q : string) (s : Session E) :
  Str.truthy (Some q) = true ->
  exists rest,
    events (handle_query E (Some q) s)
    = ([st_chat_message user; st_markdown q;
        st_status "Processing your query..."; call_process_query q]
       ++ rest)%list /\
    forallb (fun ev => negb (is_pipeline_call ev)) rest = true.
Proof.
  intros Hq.
  destruct (handle_query_events_view q s Hq) as [e Hp | r e Hp Hr | r df ci ys Hp Hv | r Hp Hno Hnr];
    eexists; (split; [reflexivity|]);
    rewrite ?forallb_app; cbn [forallb]; rewrite ?andb_true_iff;
    repeat split; try reflexivity; pieces.
Qed.

(** X3. A turn calls the validator exactly when the result has a chart
    directive and a non-empty table, once, on that table and the columns
    of the directive; a turn whose pipeline raised never calls it. *)
Theorem X3_validator_called_on_directive_and_data (q : string) (s : Session E) :
  Str.truthy (Some q) = true ->
  filter is_validation (events (handle_query E (Some q) s)) =
  match fst (pipeline E s q) with
  | Ret r =>
      match Result.chart_info r, Result.data r with
      | Some ci, Some df =>
          if Frame.empty df then []
          else [call_validate_chart_inputs df (x_column ci) (y_columns ci)]
      | _, _ => []
      end
  | Raise _ => []
  end.
Proof.
  intros Hq.
  assert (forall r, filter is_validation (status_lines E r) = []) as Hst
      by (intros r; apply filter_none; pieces).
  assert (forall e, filter is_validation (error_events E e) = []) as Her
      by (intros e; apply filter_none; pieces).
  assert (forall m, filter is_validation (chart_render_events E m) = []) as Hre
      by (intros m; apply filter_none; pieces).
  assert (forall r, filter is_validation (chart_step_calls E r) =
                    match Result.chart_info r, Result.data r with
                    | Some ci, Some df =>
                        if Frame.empty df then []
                        else [call_validate_chart_inputs df (x_column ci) (y_columns ci)]
                    | _, _ => []
                    end) as Hch
      by (intros r; pieces).
  destruct (handle_query_events_view q s Hq) as [e Hp | r e Hp Hr | r df ci ys Hp Hv | r Hp Hno Hnr];
    rewrite Hp, ?filter_app; cbn [filter is_validation app];
    rewrite ?filter_app, ?Hst, ?Her, ?Hre, ?Hch; cbn [filter is_validation app];
    rewrite ?Hre, ?app_nil_r; reflexivity.
Qed.


(** The turn leaves the agents alone and takes the shared memory from
    the pipeline. *)
Lemma turn_final (q : string) (s : Session E) :
  Str.truthy (Some q) = true ->
  exists added,
    final (handle_query E (Some q) s) = after_turn E s q added.
Proof.
  intros Hq.
  destruct (handle_query_view q s Hq) as [e Hp | r e Hp Ha | r r' m Hp Ha];
    eexists; reflexivity.
Qed.

(** X1. A turn on a non-empty query never replaces the agent handles,
    and the shared memory it leaves is the one the pipeline call left,
    also when the pipeline, the validator or the render raised. *)
Theorem X1_turn_keeps_agents_and_pipeline_memory (q : string) (s : Session E) :
  Str.truthy (Some q) = true ->
  agents (final (handle_query E (Some q) s)) = agents s /\
  shared_memory (final (handle_query E (Some q) s)) = snd (pipeline E s q).
Proof.
  intros Hq. destruct (turn_final q s Hq) as [added ->]. split; reflexivity.
Qed.

Lemma chart_render_events_build (m : ChatMessage) (records : list Record_)
      (ci : ChartInfo) :
  filter is_build (chart_render_events E (set_chart m records ci)) =
  [call_create_visualization (Frame.from_records records) (x_column ci)
                             (y_columns ci) (get_chart_type ci)].
Proof.
  unfold chart_render_events, inline_error.
  cbn [chart_data chart_info set_chart]. by_cases; reflexivity.
Qed.

Lemma build_calls_of_turn (q : string) (s : Session E) :
  Str.truthy (Some q) = true ->
  (forall r df ci ys,
      fst (pipeline E s q) = Ret r ->
      chart_validated E r df ci ys ->
      filter is_build (events (handle_query E (Some q) s)) =
      [call_create_visualization
         (Frame.from_records (Frame.to_dict_records df))
         (x_column ci) ys (get_chart_type ci)]) /\
  ((forall r df ci ys,
       fst (pipeline E s q) = Ret r -> ~ chart_validated E r df ci ys) ->
   filter is_build (events (handle_query E (Some q) s)) = []).
Proof.
  intros Hq.
  assert (forall r, filter is_build (status_lines E r) = []) as Hst
      by (intros r; apply filter_none; pieces).
  assert (forall e, filter is_build (error_events E e) = []) as Her
      by (intros e; apply filter_none; pieces).
  assert (forall r, filter is_build (chart_step_calls E r) = []) as Hch
      by (intros r; apply filter_none; pieces).
  split.
  - intros r0 df0 ci0 ys0 Hp0 Hv0.
    destruct (handle_query_events_view q s Hq) as [e Hp | r e Hp Hr | r df ci ys Hp Hv | r Hp Hno Hnr];
      try congruence.
    + assert (r = r0) by congruence. subst r0. destruct Hr as (ci & df & Hc & Hd & He & Hraise).
      destruct Hv0 as (Hc0 & Hd0 & _ & msg & Hok). congruence.
    + assert (r = r0) by congruence. subst r0.
      destruct Hv as (Hc & Hd & He & msg & Hok).
      destruct Hv0 as (Hc0 & Hd0 & He0 & msg0 & Hok0).
      assert (ci = ci0) by congruence. subst ci0.
      assert (df = df0) by congruence. subst df0.
      assert (ys = ys0) by congruence. subst ys0.
      rewrite !filter_app. cbn [filter is_build app].
      rewrite ?filter_app, Hst, Hch. cbn [filter is_build app].
      rewrite chart_render_events_build. reflexivity.
    + assert (r = r0) by congruence. subst r0. destruct (Hno _ _ _ Hv0).
  - intros Hnone.
    destruct (handle_query_events_view q s Hq) as [e Hp | r e Hp Hr | r df ci ys Hp Hv | r Hp Hno Hnr];
      try (destruct (Hnone _ _ _ _ Hp Hv));
      rewrite ?filter_app; cbn [filter is_build app];
      rewrite ?filter_app, ?Hst, ?Her, ?Hch; reflexivity.
Qed.

(** X4. A turn calls the chart builder exactly when the validator
    accepted the directive, once, on the table rebuilt from the persisted
    records, the x-column of the directive, the y-columns the validator
    kept and the chart type of the directive, [line] when it has none.
    A turn without an accepted directive never calls the builder. *)
Theorem X4_chart_built_from_validated_directive (q : string) (s : Session E) :
  Str.truthy (Some q) = true ->
  (forall r df ci ys,
      fst (pipeline E s q) = Ret r ->
      chart_validated E r df ci ys ->
      filter is_build (events (handle_query E (Some q) s)) =
      [call_create_visualization
         (Frame.from_records (Frame.to_dict_records df))
         (x_column ci) ys (get_chart_type ci)]) /\
  ((forall r df ci ys,
       fst (pipeline E s q) = Ret r -> ~ chart_validated E r df ci ys) ->
   filter is_build (events (handle_query E (Some q) s)) = []).
Proof. exact (build_calls_of_turn q s). Qed.

(** X5. A turn calls the date parser exactly when the validator accepted
    the directive, the lower-cased name of its x-column contains "date"
    or "time", and the table has that column: once, on the values of
    that column.  A turn without an accepted directive never parses. *)
Theorem X5_dates_parsed_for_validated_date_column (q : string) (s : Session E) :
  Str.truthy (Some q) = true ->
  (forall r df ci ys,
      fst (pipeline E s q) = Ret r ->
      chart_validated E r df ci ys ->
      filter is_date_parse (events (handle_query E (Some q) s)) =
      if names_a_date (x_column ci) then
        match Frame.get_column df (x_column ci) with
        | Ret col => [call_to_datetime col]
        | Raise _ => []
        end
      else []) /\
  ((forall r df ci ys,
       fst (pipeline E s q) = Ret r -> ~ chart_validated E r df ci ys) ->
   filter is_date_parse (events (handle_query E (Some q) s)) = []).
Proof.
  intros Hq.
  assert (forall r, filter is_date_parse (status_lines E r) = []) as Hst
      by (intros r; apply filter_none; pieces).
  assert (forall e, filter is_date_parse (error_events E e) = []) as Her
      by (intros e; apply filter_none; pieces).
  assert (forall m, filter is_date_parse (chart_render_events E m) = []) as Hre
      by (intros m; apply filter_none; pieces).
  split.
  - intros r0 df0 ci0 ys0 Hp0 Hv0.
    destruct (handle_query_events_view q s Hq) as [e Hp | r e Hp Hr | r df ci ys Hp Hv | r Hp Hno Hnr];
      try congruence.
    + assert (r = r0) by congruence. subst r0. destruct Hr as (ci & df & Hc & Hd & He & Hraise).
      destruct Hv0 as (Hc0 & Hd0 & _ & msg & Hok). congruence.
    + assert (r = r0) by congruence. subst r0.
      rewrite (chart_step_calls_validated r df0 ci0 ys0 Hv0).
      rewrite !filter_app. cbn [filter is_date_parse app].
      rewrite ?filter_app, Hst, Hre. cbn [filter is_date_parse app].
      rewrite ?app_nil_r. by_cases; reflexivity.
    + assert (r = r0) by congruence. subst r0. destruct (Hno _ _ _ Hv0).
  - intros Hnone.
    destruct (handle_query_events_view q s Hq) as [e Hp | r e Hp Hr | r df ci ys Hp Hv | r Hp Hno Hnr];
      try (destruct (Hnone _ _ _ _ Hp Hv));
      try (pose proof (filter_none _ _ (chart_step_calls_otherwise
                                          r (fun df ci ys => Hnone r df ci ys Hp)))
            as Hch);
      rewrite ?filter_app; cbn [filter is_date_parse app];
      rewrite ?filter_app, ?Hst, ?Her, ?Hch; reflexivity.
Qed.


(** X7. The status box of a turn shows SQL text exactly when the
    pipeline returned, the classification is SQL or VIZ and the result
    carries a non-empty [sql_query]: then that text, once. *)
Theorem X7_sql_text_shown_when_present (q : string) (s : Session E) :
  Str.truthy (Some q) = true ->
  filter is_status_code (events (handle_query E (Some q) s)) =
  match fst (pipeline E s q) with
  | Ret r =>
      if in_sql_viz (query_type (Result.classification r)) then
        match Result.sql_query r with
        | Some sql => if Str.truthy (Some sql) then [status_code sql] else []
        | None => []
        end
      else []
  | Raise _ => []
  end.
Proof.
  intros Hq.
  assert (forall r, filter is_status_code (status_lines E r) =
                    if in_sql_viz (query_type (Result.classification r)) then
                      match Result.sql_query r with
                      | Some sql => if Str.truthy (Some sql) then [status_code sql] else []
                      | None => []
                      end
                    else []) as Hst.
  { intros r. unfold status_lines.
    destruct (in_sql_viz _); [|reflexivity].
    cbn [filter is_status_code]. rewrite filter_app.
    assert (filter is_status_code
              (if Result.success r
               then (match Result.data r with
                     | Some df =>
                         status_write ("Query returned " ++ Str.of_nat (Frame.len df)
                                       ++ " rows")
                         :: (if is_debug_mode E
                             then show_data_debug df
                                  :: match Result.chart_info r with
                                     | Some ci => [show_chart_debug ci]
                                     | None => []
                                     end
                             else [])
                     | None => []
                     end ++ [status_update "Query processed successfully!" complete])%list
               else [@status_update E "Error executing query" errored]) = []) as ->
        by (apply filter_none; by_cases; reflexivity).
    rewrite app_nil_r.
    destruct (Result.sql_query r) as [sql|]; [|reflexivity].
    destruct (Str.truthy (Some sql)); reflexivity. }
  assert (forall e, filter is_status_code (error_events E e) = []) as Her
      by (intros e; apply filter_none; pieces).
  assert (forall m, filter is_status_code (chart_render_events E m) = []) as Hre
      by (intros m; apply filter_none; pieces).
  assert (forall r, filter is_status_code (chart_step_calls E r) = []) as Hch
      by (intros r; apply filter_none; pieces).
  destruct (handle_query_events_view q s Hq) as [e Hp | r e Hp Hr | r df ci ys Hp Hv | r Hp Hno Hnr];
    rewrite Hp, ?filter_app; cbn [filter is_status_code app];
    rewrite ?filter_app, ?Hst, ?Her, ?Hch; cbn [filter is_status_code app];
    rewrite ?Hre, ?app_nil_r; reflexivity.
Qed.

(** X8. When the pipeline returns, the controller updates the status box
    of the turn exactly once: to an error when the classification is SQL
    or VIZ and [success] is false, to a success when it is SQL or VIZ
    and [success] is true, and to merely processed otherwise.  When the
    pipeline raises, the controller never updates the status box. *)
Theorem X8_status_closed_once (q : string) (s : Session E) :
  Str.truthy (Some q) = true ->
  filter is_status_update (events (handle_query E (Some q) s)) =
  match fst (pipeline E s q) with
  | Ret r => [closing_status E r]
  | Raise _ => []
  end.
Proof.
  intros Hq.
  assert (forall r, filter is_status_update (status_lines E r) = [closing_status E r])
    as Hst by (intros r; pieces).
  assert (forall e, filter is_status_update (error_events E e) = []) as Her
      by (intros e; apply filter_none; pieces).
  assert (forall m, filter is_status_update (chart_render_events E m) = []) as Hre
      by (intros m; apply filter_none; pieces).
  assert (forall r, filter is_status_update (chart_step_calls E r) = []) as Hch
      by (intros r; apply filter_none; pieces).
  destruct (handle_query_events_view q s Hq) as [e Hp | r e Hp Hr | r df ci ys Hp Hv | r Hp Hno Hnr];
    rewrite Hp, ?filter_app; cbn [filter is_status_update app];
    rewrite ?filter_app, ?Hst, ?Her, ?Hch; cbn [filter is_status_update app];
    rewrite ?Hre, ?app_nil_r; reflexivity.
Qed.


(** ** The replay, event by event *)

Lemma replay_message_exact (m : ChatMessage) (s : Session E) :
  replay_message E m s =
  {| outcome := Ret tt; final := s;
     events := (bubble E m
                ++ if is_processing s then [] else replay_chart_events E m)%list |}.
Proof.
  unfold replay_message, replay_chart_events, inline_error. cbn.
  destruct (is_processing s); [reflexivity|].
  destruct (role m); [reflexivity|].
  destruct (chart_data m) as [records|]; [|reflexivity].
  destruct (chart_info m) as [ci|]; [|reflexivity].
  cbn.
  destruct (is_debug_mode E); cbn;
    destruct (validate_chart_inputs E _ _ _) as [[[[|] vy] msg]|e]; cbn;
    try reflexivity;
    destruct (create_visualization E _ _ _ _) as [c|e]; cbn;
    try reflexivity;
    destruct (display_visualization E c) as [[]|e]; cbn;
    reflexivity.
Qed.

Lemma replay_history_events (s : Session E) :
  events (replay_history E s) =
  flat_map (fun m => (bubble E m
                      ++ if is_processing s then [] else replay_chart_events E m)%list)
           (chat_history s).
Proof.
  rewrite replay_history_run. cbn [events].
  apply flat_map_ext. intros m. rewrite replay_message_exact. reflexivity.
Qed.

Lemma forallb_flat_map {A B : Type} (P : B -> bool) (f : A -> list B) (l : list A) :
  (forall a, forallb P (f a) = true) -> forallb P (flat_map f l) = true.
Proof.
  intros H. induction l as [|a l IH]; [reflexivity|].
  cbn. rewrite forallb_app, H, IH. reflexivity.
Qed.

(** X6. Outside debug mode neither a call of [handle_query] nor the
    replay of the history calls a debug helper: no table, directive or
    exception is dumped. *)
Theorem X6_no_debug_output_outside_debug_mode
        (user_query : option string) (s : Session E) :
  is_debug_mode E = false ->
  forallb (fun ev => negb (is_debug_event ev))
          (events (handle_query E user_query s)) = true /\
  forallb (fun ev => negb (is_debug_event ev))
          (events (replay_history E s)) = true.
Proof.
  intros Hd. split.
  - destruct (Str.truthy user_query) eqn:Hq;
      [|rewrite (handle_query_falsy _ s Hq); reflexivity].
    destruct user_query as [q|]; [|discriminate].
    assert (forall r, forallb (fun ev => negb (@is_debug_event E ev))
                              (status_lines E r) = true) as Hst
        by (intros r; unfold status_lines; rewrite Hd; by_cases; reflexivity).
    assert (forall e, forallb (fun ev => negb (@is_debug_event E ev))
                              (error_events E e) = true) as Her
        by (intros e; unfold error_events; rewrite Hd; reflexivity).
    assert (forall m, forallb (fun ev => negb (@is_debug_event E ev))
                              (chart_render_events E m) = true) as Hre
        by (intros m; unfold chart_render_events, inline_error; rewrite Hd;
            by_cases; reflexivity).
    assert (forall r, forallb (fun ev => negb (@is_debug_event E ev))
                              (chart_step_calls E r) = true) as Hch
        by (intros r; pieces).
    destruct (handle_query_events_view q s Hq) as [e Hp | r e Hp Hr | r df ci ys Hp Hv | r Hp Hno Hnr];
      rewrite ?forallb_app; cbn [forallb app negb is_debug_event andb];
      rewrite ?forallb_app, ?Hst, ?Her, ?Hch, ?Hre; reflexivity.
  - rewrite replay_history_events. apply forallb_flat_map. intros m.
    rewrite forallb_app. unfold replay_chart_events, inline_error. rewrite Hd.
    by_cases; reflexivity.
Qed.

Lemma shown_texts_app (t t' : list (Event E)) :
  shown_texts (t ++ t') = (shown_texts t ++ shown_texts t')%list.
Proof. unfold shown_texts. apply flat_map_app. Qed.

Lemma replay_chart_events_no_text (m : ChatMessage) :
  shown_texts (replay_chart_events E m) = [].
Proof.
  unfold replay_chart_events, inline_error.
  by_cases; cbn; rewrite ?shown_texts_app; by_cases; reflexivity.
Qed.

(** X9. The replay shows the texts of the stored messages from the
    first to the last, each once and nothing else as text, whether a
    turn is in flight or not and whatever the charts do. *)
Theorem X9_replay_shows_texts_in_order (s : Session E) :
  shown_texts (events (replay_history E s)) = map text (chat_history s).
Proof.
  rewrite replay_history_events.
  induction (chat_history s) as [|m l IH]; [reflexivity|].
  cbn [flat_map map]. rewrite !shown_texts_app, IH.
  destruct (is_processing s); [reflexivity|].
  rewrite replay_chart_events_no_text. reflexivity.
Qed.


(** X10. When no turn is in flight and the validator rejects the stored
    directive of an assistant message, the iteration of the replay shows
    the text, the validator's message as a warning and nothing more: the
    builder and the display are not called for that message, and the
    iteration ends normally with the session unchanged. *)
Theorem X10_replay_warns_on_rejection
        (m : ChatMessage) (s : Session E) (records : list Record_)
        (ci : ChartInfo) (ys : list string) (msg : string) :
  is_processing s = false ->
  role m = assistant ->
  chart_data m = Some records ->
  chart_info m = Some ci ->
  validate_chart_inputs E (Frame.from_records records) (x_column ci) (y_columns ci)
  = Ret (false, ys, msg) ->
  replay_message E m s =
  {| outcome := Ret tt; final := s;
     events := (bubble E m
                ++ (if is_debug_mode E
                    then [debug_visualization (Frame.from_records records) ci]
                    else [])
                ++ [call_validate_chart_inputs (Frame.from_records records)
                                               (x_column ci) (y_columns ci);
                    st_warning msg])%list |}.
Proof.
  intros Hp Hr Hd Hi Hv. rewrite replay_message_exact, Hp.
  unfold replay_chart_events. rewrite Hr, Hd, Hi. cbn zeta. rewrite Hv.
  reflexivity.
Qed.

(** X11. When no turn is in flight and the validator, the builder or the
    display raises for a stored assistant message, the replay shows the
    inline error with the message of the exception and still ends
    normally. *)
Theorem X11_replay_shows_inline_error
        (m : ChatMessage) (s : Session E) (e : exn) :
  is_processing s = false ->
  In m (chat_history s) ->
  role m = assistant ->
  replay_raises E m e ->
  outcome (replay_history E s) = Ret tt /\
  In (st_error ("Error displaying visualization: " ++ exn_msg e))
     (events (replay_history E s)).
Proof.
  intros Hp Hm Hr (records & ci & Hd & Hi & Hraise).
  split; [rewrite replay_history_run; reflexivity|].
  rewrite replay_history_events. apply in_flat_map. exists m.
  split; [exact Hm|]. rewrite Hp. apply in_or_app. right.
  unfold replay_chart_events, inline_error. rewrite Hr, Hd, Hi.
  cbn zeta in Hraise |- *. apply in_or_app. right.
  destruct Hraise as [H | (ys & msg & H & [H' | (chart & H' & H'')])];
    rewrite H; cbn; rewrite ?H'; cbn; rewrite ?H''; cbn; auto 6.
Qed.

(** X12. For a user message, or a message without [chart_data] or
    without [chart_info], an iteration of the replay shows the bubble and
    the text and does nothing else, whatever the flag. *)
Theorem X12_replay_of_plain_message (m : ChatMessage) (s : Session E) :
  role m = user \/ chart_data m = None \/ chart_info m = None ->
  replay_message E m s =
  {| outcome := Ret tt; final := s; events := bubble E m |}.
Proof.
  intros H. rewrite replay_message_exact.
  assert (replay_chart_events E m = []) as ->.
  { unfold replay_chart_events.
    destruct H as [-> | [-> | ->]]; [reflexivity| |];
      destruct (role m); try reflexivity.
    destruct (chart_data m); reflexivity. }
  destruct (is_processing s); rewrite app_nil_r; reflexivity.
Qed.

(** ** A turn, then the replay *)

(** X13. After a turn whose directive the validator accepted, the
    history holds the assistant message with the table's records and the
    directive reduced to the kept y-columns, and [is_processing] is
    false: the next replay validates that stored directive again, on the
    table rebuilt from the stored records and on the kept y-columns, not
    on the y-columns the pipeline asked for. *)
Theorem X13_replay_revalidates_what_the_turn_stored
        (q : string) (s : Session E) (r : Result.t) (df : DataFrame)
        (ci : ChartInfo) (ys : list string) :
  Str.truthy (Some q) = true ->
  fst (pipeline E s q) = Ret r ->
  chart_validated E r df ci ys ->
  let s' := final (handle_query E (Some q) s) in
  In (call_validate_chart_inputs
        (Frame.from_records (Frame.to_dict_records df)) (x_column ci) ys)
     (events (replay_history E s')).
Proof.
  intros Hq Hp Hv s'. subst s'.
  rewrite (turn_when_attach_returns q s r _ _ Hq Hp
             (attach_chart_validated r _ s df ci ys Hv)).
  cbn [final]. rewrite replay_history_events.
  apply in_flat_map.
  exists (set_chart (new_assistant_message r) (Frame.to_dict_records df)
                    (normalized ci ys)).
  split.
  - unfold after_turn. cbn [chat_history]. apply in_or_app. right. cbn. auto.
  - cbn [is_processing after_turn]. apply in_or_app. right.
    unfold replay_chart_events. cbn [role chart_data chart_info set_chart new_assistant_message].
    cbn zeta. apply in_or_app. right. left. reflexivity.
Qed.


(** ** Records and tables *)

Lemma mem_In (k : string) (ks : list string) : Frame.mem k ks = true <-> In k ks.
Proof.
  unfold Frame.mem. rewrite existsb_exists. split.
  - intros (x & Hx & He). apply String.eqb_eq in He. subst. exact Hx.
  - intros H. exists k. split; [exact H | apply String.eqb_refl].
Qed.

Lemma union_keys_fresh (ks seen : list string) :
  NoDup (seen ++ ks) -> Frame.union_keys seen ks = (seen ++ ks)%list.
Proof.
  revert seen. induction ks as [|k ks IH]; intros seen Hnd; cbn.
  - rewrite app_nil_r. reflexivity.
  - destruct (Frame.mem k seen) eqn:Hm.
    + apply mem_In in Hm. apply NoDup_remove_2 in Hnd.
      exfalso. apply Hnd. apply in_or_app. left. exact Hm.
    + rewrite IH; rewrite <- app_assoc; [reflexivity | exact Hnd].
Qed.

Lemma union_keys_known (ks seen : list string) :
  incl ks seen -> Frame.union_keys seen ks = seen.
Proof.
  induction ks as [|k ks IH]; intros Hin; cbn; [reflexivity|].
  assert (Frame.mem k seen = true) as -> by (apply mem_In, Hin; left; reflexivity).
  apply IH. intros x Hx. apply Hin. right. exact Hx.
Qed.

Lemma map_fst_combine (ks : list string) (r : list Cell) :
  length r = length ks -> map fst (combine ks r) = ks.
Proof.
  revert r. induction ks as [|k ks IH]; intros [|v r] H; cbn in *;
    try discriminate; [reflexivity|].
  f_equal. apply IH. congruence.
Qed.

Lemma map_fixed {A : Type} (f : A -> A) (l : list A) :
  (forall x, In x l -> f x = x) -> map f l = l.
Proof.
  induction l as [|a l IH]; intros H; cbn; [reflexivity|].
  rewrite (H a (or_introl eq_refl)), IH; [reflexivity|].
  intros x Hx. apply H. right. exact Hx.
Qed.

Lemma lookup_combine (ks : list string) (r : list Cell) :
  NoDup ks -> length r = length ks ->
  map (fun c => match Frame.lookup c (combine ks r) with
                | Some v => v
                | None => CNull
                end) ks = r.
Proof.
  revert r. induction ks as [|k ks IH]; intros [|v r] Hnd H; cbn in *;
    try discriminate; [reflexivity|].
  rewrite String.eqb_refl. f_equal.
  inversion Hnd as [|? ? Hk Hnd']; subst.
  transitivity (map (fun c => match Frame.lookup c (combine ks r) with
                              | Some v => v
                              | None => CNull
                              end) ks); [|apply (IH r Hnd'); congruence].
  apply map_ext_in. intros c Hc.
  destruct (c =? k) eqn:Heq; [|reflexivity].
  apply String.eqb_eq in Heq. subst. contradiction.
Qed.

Lemma from_records_columns (ks : list string) (rs : list (list Cell)) (seen : list string) :
  Forall (fun r => length r = length ks) rs ->
  incl ks seen ->
  fold_left (fun seen r => Frame.union_keys seen (map fst r))
            (map (fun r => combine ks r) rs) seen = seen.
Proof.
  intros Hall Hin. induction Hall as [|r rs Hr Hall IH]; cbn; [reflexivity|].
  rewrite (map_fst_combine ks r Hr), (union_keys_known ks seen Hin). exact IH.
Qed.

Lemma records_round_trip (df : DataFrame) :
  well_formed df ->
  Frame.from_records (Frame.to_dict_records df) = df.
Proof.
  intros (Hnd & Hcols & Hrows & Hall).
  destruct df as [ks rs]. cbn in *.
  unfold Frame.from_records, Frame.to_dict_records. cbn [columns rows].
  assert (fold_left (fun seen r => Frame.union_keys seen (map fst r))
                    (map (fun r => combine ks r) rs) [] = ks) as ->.
  { destruct rs as [|r rs]; [contradiction|].
    inversion Hall as [|? ? Hr Hall']; subst. cbn [map fold_left].
    rewrite (map_fst_combine ks r Hr), (union_keys_fresh ks [] Hnd). cbn [app].
    apply (from_records_columns ks rs ks Hall'). apply incl_refl. }
  f_equal. rewrite map_map.
  apply map_fixed. intros r Hr.
  rewrite Forall_forall in Hall. apply (lookup_combine ks r Hnd (Hall r Hr)).
Qed.

(** X14. Records and back: for a table with distinct column names, at
    least one column and one row, and rows as long as the header, the
    table [pd.DataFrame] rebuilds from [to_dict("records")] is the table
    itself. *)
Theorem X14_records_round_trip (df : DataFrame) :
  well_formed df ->
  Frame.from_records (Frame.to_dict_records df) = df.
Proof. exact (records_round_trip df). Qed.

(** X15. In a turn whose directive the validator accepted on a table
    with distinct column names, at least one column and one row, and
    rows as long as the header, the chart is built once, on that very
    table, the x-column of the directive and the kept y-columns. *)
Theorem X15_chart_built_on_the_validated_table
        (q : string) (s : Session E) (r : Result.t) (df : DataFrame)
        (ci : ChartInfo) (ys : list string) :
  Str.truthy (Some q) = true ->
  fst (pipeline E s q) = Ret r ->
  chart_validated E r df ci ys ->
  well_formed df ->
  filter is_build (events (handle_query E (Some q) s)) =
  [call_create_visualization df (x_column ci) ys (get_chart_type ci)].
Proof.
  intros Hq Hp Hv Hwf.
  rewrite (proj1 (build_calls_of_turn q s Hq) r df ci ys Hp Hv).
  rewrite (records_round_trip df Hwf). reflexivity.
Qed.


(** ** The script *)

Variable P : Platform E.

Lemma prompt_step_run (prompt : option string) (s : Session E) :
  prompt_step E prompt s =
  (Ret tt, final (handle_query E prompt s),
   st_chat_input :: map body (events (handle_query E prompt s))).
Proof.
  unfold prompt_step. destruct (Str.truthy prompt) eqn:Hq.
  - pose proof (Total_unit _ s (Total_handle_query prompt)) as Ho.
    destruct (handle_query E prompt s) as [o s' t]. cbn in Ho. subst o.
    reflexivity.
  - rewrite (handle_query_falsy prompt s Hq). reflexivity.
Qed.

(** A run of the script that has or gets its agents. *)
Lemma create_interface_run (prompt : option string) (ss : SessionState E)
      (a : Agent E * Agent E * Agent E) :
  ss_agents ss = Some a \/
  (ss_agents ss = None /\
   initialize_agents P (setdefault (ss_shared_memory ss) (AgentMemory P)) = Ret a) ->
  create_interface E P prompt ss =
  let s := session_of E P ss a in
  {| script_outcome := Ret tt;
     script_state := of_session (final (handle_query E prompt s));
     script_events :=
       (header E P
        ++ (match ss_agents ss with
            | Some _ => []
            | None => [call_initialize_agents]
            end)
        ++ map body (events (replay_history E s))
        ++ st_chat_input :: map body (events (handle_query E prompt s)))%list |}.
Proof.
  intros H. unfold create_interface, session_of.
  destruct H as [-> | [-> ->]];
    rewrite replay_history_run, prompt_step_run; reflexivity.
Qed.

Lemma session_of_of_session (s : Session E) :
  session_of E P (of_session s) (agents s) = s.
Proof. destruct s; reflexivity. Qed.

(** X16. A run of the script without a prompt on a session state that
    has all its keys leaves the state exactly as it was: it shows the
    header, the replay of the history and the input box, and calls
    neither [initialize_agents] nor the pipeline. *)
Theorem X16_rerun_without_prompt_changes_nothing
        (prompt : option string) (s : Session E) :
  Str.truthy prompt = false ->
  create_interface E P prompt (of_session s) =
  {| script_outcome := Ret tt;
     script_state := of_session s;
     script_events := (header E P
                       ++ map body (events (replay_history E s))
                       ++ [st_chat_input])%list |}.
Proof.
  intros Hq.
  rewrite (create_interface_run prompt (of_session s) (agents s))
    by (left; reflexivity).
  cbn zeta. rewrite session_of_of_session, (handle_query_falsy prompt s Hq).
  reflexivity.
Qed.

(** X17. The first run of a new browser session, when
    [initialize_agents] returns: the state gets the greeting as its whole
    history, [is_processing] false, a new agent memory and the agents
    built from that memory; the run shows the header and the greeting
    and then the input box. *)
Theorem X17_first_run_initialises_the_session
        (a : Agent E * Agent E * Agent E) :
  initialize_agents P (AgentMemory P) = Ret a ->
  create_interface E P None fresh =
  {| script_outcome := Ret tt;
     script_state := {| ss_is_processing := Some false;
                        ss_chat_history := Some [welcome_message];
                        ss_shared_memory := Some (AgentMemory P);
                        ss_agents := Some a |};
     script_events := (header E P
                       ++ [call_initialize_agents; body (st_chat_message assistant);
                           body (st_markdown (text welcome_message));
                           st_chat_input])%list |}.
Proof.
  intros Hi.
  rewrite (create_interface_run None fresh a) by (right; split; [reflexivity | exact Hi]).
  cbn zeta. rewrite replay_history_events. reflexivity.
Qed.

(** X18. When [initialize_agents] raises, the exception leaves
    [create_interface]: nothing is replayed, no input box is shown and no
    turn is processed.  The state keeps what it had and the defaults of
    the other keys, but no agents, so that the next run calls
    [initialize_agents] again. *)
Theorem X18_failed_initialisation_propagates
        (prompt : option string) (ss : SessionState E) (e : exn) :
  ss_agents ss = None ->
  initialize_agents P (setdefault (ss_shared_memory ss) (AgentMemory P)) = Raise e ->
  create_interface E P prompt ss =
  {| script_outcome := Raise e;
     script_state :=
       {| ss_is_processing := Some (setdefault (ss_is_processing ss) false);
          ss_chat_history := Some (setdefault (ss_chat_history ss) [welcome_message]);
          ss_shared_memory := Some (setdefault (ss_shared_memory ss) (AgentMemory P));
          ss_agents := None |};
     script_events := (header E P ++ [call_initialize_agents])%list |}.
Proof.
  intros Ha Hi. unfold create_interface. rewrite Ha, Hi. reflexivity.
Qed.



(** ** Run after run *)

Lemma turn_appends_two (q : string) (s : Session E) :
  Str.truthy (Some q) = true ->
  exists m,
    final (handle_query E (Some q) s)
    = after_turn E s q [text_message user q; m].
Proof.
  intros Hq.
  destruct (handle_query_view q s Hq) as [e Hp | r e Hp Ha | r r' m Hp Ha];
    eexists; reflexivity.
Qed.

Lemma no_init_call_in_body (t : list (Event E)) :
  forallb (fun ev => negb (is_init_call ev)) (map body t) = true.
Proof. induction t as [|ev t IH]; [reflexivity | exact IH]. Qed.

Lemma no_init_call_in_header :
  forallb (fun ev => negb (is_init_call ev)) (header E P) = true.
Proof. unfold header. destruct (setup_debug_mode P); reflexivity. Qed.

(** One run from a state at rest. *)
Lemma run_at_rest (a : Agent E * Agent E * Agent E) (prompt : option string)
      (ss : SessionState E) (h : list ChatMessage) :
  at_rest a ss ->
  ss_chat_history ss = Some h ->
  let r := create_interface E P prompt ss in
  script_outcome r = Ret tt /\
  at_rest a (script_state r) /\
  forallb (fun ev => negb (is_init_call ev)) (script_events r) = true /\
  exists added,
    ss_chat_history (script_state r) = Some (h ++ added)%list /\
    length added = if Str.truthy prompt then 2 else 0.
Proof.
  intros (Hp & Ha & Hm & h' & Hh) Hh0 r. subst r.
  rewrite Hh in Hh0. injection Hh0 as <-.
  rewrite (create_interface_run prompt ss a) by (left; exact Ha).
  cbn zeta. cbn [script_outcome script_state script_events].
  split; [reflexivity|].
  assert (forallb (fun ev => negb (is_init_call ev))
            (header E P
             ++ match ss_agents ss with
                | Some _ => []
                | None => [call_initialize_agents]
                end
             ++ map body (events (replay_history E (session_of E P ss a)))
             ++ st_chat_input
             :: map body (events (handle_query E prompt (session_of E P ss a))))%list
          = true) as Hnone.
  { rewrite Ha, !forallb_app, no_init_call_in_header, no_init_call_in_body.
    cbn. apply no_init_call_in_body. }
  enough (at_rest a (of_session (final (handle_query E prompt (session_of E P ss a))))
          /\ exists added,
               ss_chat_history
                 (of_session (final (handle_query E prompt (session_of E P ss a))))
               = Some ((welcome_message :: h') ++ added)%list /\
               length added = if Str.truthy prompt then 2 else 0)
    as [H1 H2] by (split; [exact H1 | split; [exact Hnone | exact H2]]).
  clear Hnone.
  destruct (ss_shared_memory ss) as [mem|] eqn:Hmem; [|contradiction].
  assert (session_of E P ss a =
          {| chat_history := welcome_message :: h'; is_processing := false;
             shared_memory := mem; agents := a |}) as ->
      by (unfold session_of; rewrite Hh, Hp, Hmem; reflexivity).
  destruct (Str.truthy prompt) eqn:Hq.
  - destruct prompt as [q|]; [|discriminate].
    destruct (turn_appends_two
                q {| chat_history := welcome_message :: h'; is_processing := false;
                     shared_memory := mem; agents := a |} Hq) as [m ->].
    unfold at_rest, of_session, after_turn.
    cbn [ss_is_processing ss_agents ss_shared_memory ss_chat_history
         chat_history is_processing shared_memory agents].
    split.
    + split; [reflexivity|]. split; [reflexivity|]. split; [discriminate|].
      exists (h' ++ [text_message user q; m])%list. reflexivity.
    + exists [text_message user q; m]. split; reflexivity.
  - rewrite (handle_query_falsy prompt _ Hq).
    unfold at_rest, of_session.
    cbn [final ss_is_processing ss_agents ss_shared_memory ss_chat_history
         chat_history is_processing shared_memory agents].
    split.
    + split; [reflexivity|]. split; [reflexivity|]. split; [discriminate|].
      exists h'. reflexivity.
    + exists []. rewrite app_nil_r. split; reflexivity.
Qed.

Lemma reruns_at_rest (a : Agent E * Agent E * Agent E)
      (prompts : list (option string)) (ss : SessionState E) :
  at_rest a ss ->
  Forall (fun r => script_outcome r = Ret tt /\
                   at_rest a (script_state r) /\
                   forallb (fun ev => negb (is_init_call ev)) (script_events r) = true)
         (reruns E P prompts ss).
Proof.
  revert ss. induction prompts as [|prompt prompts IH]; intros ss Hrest;
    [constructor|].
  cbn [reruns]. unfold main.
  destruct Hrest as (Hp & Ha & Hm & h & Hh).
  destruct (run_at_rest a prompt ss _ (conj Hp (conj Ha (conj Hm (ex_intro _ h Hh)))) Hh)
    as (Ho & Hrest' & Hnone & _).
  constructor; [auto|]. apply IH. exact Hrest'.
Qed.

Lemma first_run_at_rest (a : Agent E * Agent E * Agent E) (prompt : option string) :
  initialize_agents P (AgentMemory P) = Ret a ->
  script_outcome (create_interface E P prompt fresh) = Ret tt /\
  at_rest a (script_state (create_interface E P prompt fresh)) /\
  exists added,
    ss_chat_history (script_state (create_interface E P prompt fresh))
    = Some (welcome_message :: added) /\
    length added = if Str.truthy prompt then 2 else 0.
Proof.
  intros Hi.
  rewrite (create_interface_run prompt fresh a)
    by (right; split; [reflexivity | exact Hi]).
  cbn zeta. cbn [script_outcome script_state].
  split; [reflexivity|].
  assert (session_of E P fresh a =
          {| chat_history := [welcome_message]; is_processing := false;
             shared_memory := AgentMemory P; agents := a |}) as -> by reflexivity.
  destruct (Str.truthy prompt) eqn:Hq.
  - destruct prompt as [q|]; [|discriminate].
    destruct (turn_appends_two
                q {| chat_history := [welcome_message]; is_processing := false;
                     shared_memory := AgentMemory P; agents := a |} Hq) as [m ->].
    unfold at_rest, of_session, after_turn.
    cbn [ss_is_processing ss_agents ss_shared_memory ss_chat_history
         chat_history is_processing shared_memory agents].
    split.
    + split; [reflexivity|]. split; [reflexivity|]. split; [discriminate|].
      exists [text_message user q; m]. reflexivity.
    + exists [text_message user q; m]. split; reflexivity.
  - rewrite (handle_query_falsy prompt _ Hq).
    unfold at_rest, of_session.
    cbn [final ss_is_processing ss_agents ss_shared_memory ss_chat_history
         chat_history is_processing shared_memory agents].
    split.
    + split; [reflexivity|]. split; [reflexivity|]. split; [discriminate|].
      exists []. reflexivity.
    + exists []. split; reflexivity.
Qed.


Lemma state_after_at_rest (a : Agent E * Agent E * Agent E)
      (prompts : list (option string)) (ss : SessionState E) (h : list ChatMessage) :
  at_rest a ss ->
  ss_chat_history ss = Some h ->
  exists added,
    ss_chat_history (state_after E P prompts ss) = Some (h ++ added)%list /\
    length added = 2 * length (filter Str.truthy prompts).
Proof.
  revert ss h. induction prompts as [|prompt prompts IH]; intros ss h Hrest Hh.
  - exists []. rewrite app_nil_r. split; [exact Hh | reflexivity].
  - unfold state_after. cbn [fold_left].
    change (main E P prompt ss) with (create_interface E P prompt ss).
    destruct (run_at_rest a prompt ss h Hrest Hh) as (_ & Hrest' & _ & added & Hh' & Hlen).
    destruct (IH _ _ Hrest' Hh') as (added' & Hh'' & Hlen').
    exists (added ++ added')%list. split.
    + unfold state_after in Hh''. rewrite Hh'', app_assoc. reflexivity.
    + rewrite length_app, Hlen, Hlen'. cbn [filter].
      destruct (Str.truthy prompt); cbn [length]; rewrite ?Nat.mul_succ_r;
        rewrite ?Nat.add_0_l; [|reflexivity].
      rewrite Nat.add_comm. reflexivity.
Qed.



End Properties.

(** * The controller at work

    Runs of the controller on the concrete collaborators of [Demo]. *)

Section Scenarios.

Import Demo.

(** Scenario B persists the chart of the runs. *)
Lemma C1_witness :
  let s := start E_B [] tt in
  Str.truthy (Some ask) = true /\
  exists m,
    appended s (handle_query E_B (Some ask) s) = [text_message user ask; m] /\
    role m = assistant /\
    ((exists r df ci ys,
         fst (pipeline E_B s ask) = Ret r /\
         chart_validated E_B r df ci ys /\
         chart_data m = Some (Frame.to_dict_records df) /\
         chart_info m = Some (normalized ci ys))
     \/
     ((forall r df ci ys,
          fst (pipeline E_B s ask) = Ret r -> ~ chart_validated E_B r df ci ys) /\
      chart_data m = None /\
      chart_info m = None)).
Proof.
  split; [reflexivity|].
  exact (C1_chart_fields_only_when_validated E_B ask (start E_B [] tt) eq_refl).
Defined.

(** The message of scenario B has both chart fields. *)
Lemma C2_witness :
  let s := start E_B [] tt in
  In message_B (appended s (handle_query E_B (Some ask) s)) /\
  (chart_data message_B <> None <-> chart_info message_B <> None).
Proof.
  assert (In message_B (appended (start E_B [] tt)
                                 (handle_query E_B (Some ask) (start E_B [] tt))))
    as H by (vm_compute; auto).
  split; [exact H|].
  exact (C2_chart_data_iff_chart_info E_B (Some ask) (start E_B [] tt) message_B H).
Defined.



(** C4. In scenario B the x-column is named "date" and its values
    parse as dates, and the controller does parse them: the table of the
    local result has the temporal values after the chart step.  But the
    records of the message were taken from the table before that, so the
    persisted [chart_data] holds the raw values. *)
Theorem C4_persisted_chart_data_is_raw :
  let s := start E_B [] tt in
  let run := handle_query E_B (Some ask) s in
  names_a_date "date" = true /\
  to_datetime E_B [CInt 20240101; CInt 20240108]
  = Ret [CTime 20240101; CTime 20240108] /\
  In (call_to_datetime [CInt 20240101; CInt 20240108]) (events run) /\
  (exists r' m,
      outcome (attach_chart E_B result_B (new_assistant_message result_B) s)
      = Ret (r', m) /\
      Result.data r'
      = Some {| columns := ["date"; "distance"];
                rows := [[CTime 20240101; CInt 5]; [CTime 20240108; CInt 8]] |}) /\
  exists m,
    appended s run = [text_message user ask; m] /\
    chart_data m
    = Some [[("date", CInt 20240101); ("distance", CInt 5)];
            [("date", CInt 20240108); ("distance", CInt 8)]].
Proof.
  cbv zeta. split; [reflexivity|]. split; [reflexivity|].
  split; [vm_compute; auto 20|].
  split; [do 2 eexists; split; reflexivity|].
  eexists. split; reflexivity.
Qed.





(** Scenario B with a display that raises. *)
Lemma C7_witness :
  let s := start E_B_no_display [] tt in
  let run := handle_query E_B_no_display (Some ask) s in
  Str.truthy (Some ask) = true /\
  fst (pipeline E_B_no_display s ask) = Ret result_B /\
  render_raises E_B_no_display message_B (Exception "display failed") /\
  outcome run = Ret tt /\
  In (st_error "Error displaying visualization: display failed") (events run) /\
  appended s run = [text_message user ask; message_B] /\
  is_processing (final run) = false.
Proof.
  cbv zeta.
  assert (chart_validated E_B_no_display result_B runs
            {| x_column := "date"; y_columns := ["distance"];
               chart_type := Some "line" |} ["distance"]) as Hv.
  { split; [reflexivity|]. split; [reflexivity|]. split; [reflexivity|].
    exists EmptyString. reflexivity. }
  assert (render_raises E_B_no_display message_B (Exception "display failed"))
    as Hr.
  { exists (Frame.to_dict_records runs),
           (normalized {| x_column := "date"; y_columns := ["distance"];
                          chart_type := Some "line" |} ["distance"]).
    split; [reflexivity|]. split; [reflexivity|].
    right. eexists. split; reflexivity. }
  split; [reflexivity|]. split; [reflexivity|]. split; [exact Hr|].
  exact (C7_render_exception_is_inline
           E_B_no_display ask (start E_B_no_display [] tt) result_B runs _ _
           (Exception "display failed") eq_refl eq_refl Hv Hr).
Defined.

(** The replay of a history that holds scenario B, in flight and at
    rest. *)
Lemma C8_witness :
  (is_processing (session_B true) = true /\
   events (replay_history E_B (session_B true))
   = flat_map (bubble E_B) (chat_history (session_B true)) /\
   forallb no_chart_work (events (replay_history E_B (session_B true))) = true)
  /\
  (is_processing (session_B false) = false /\
   In message_B (chat_history (session_B false)) /\
   In (call_validate_chart_inputs runs "date" ["distance"])
      (events (replay_history E_B (session_B false))) /\
   In (@call_display_visualization E_B
         {| chart_frame := runs; chart_x := "date";
            chart_ys := ["distance"]; chart_kind := "line" |})
      (events (replay_history E_B (session_B false)))).
Proof.
  split.
  - destruct (C8_replay_renders_charts_unless_processing E_B (session_B true))
      as (_ & _ & _ & Hskip & _).
    split; [reflexivity|]. exact (Hskip eq_refl).
  - destruct (C8_replay_renders_charts_unless_processing E_B (session_B false))
      as (_ & _ & _ & _ & Hdraw).
    assert (In message_B (chat_history (session_B false))) as Hin
        by (cbn; auto).
    destruct (Hdraw eq_refl message_B _ _ Hin eq_refl eq_refl eq_refl)
      as (Hval & Hshow).
    split; [reflexivity|]. split; [exact Hin|]. split; [exact Hval|].
    exact (proj2 (Hshow ["distance"] EmptyString _ eq_refl eq_refl)).
Defined.

(** The empty string is falsy. *)
Lemma C10_witness :
  let s := session_B true in
  Str.truthy (Some EmptyString) = false /\
  handle_query E_B (Some EmptyString) s = {| outcome := Ret tt; final := s; events := [] |}.
Proof.
  split; [reflexivity|].
  exact (C10_empty_query_changes_nothing E_B (Some EmptyString) (session_B true) eq_refl).
Defined.


(** ** The further properties at work *)

Lemma scenario_B_validated :
  chart_validated E_B result_B runs
    {| x_column := "date"; y_columns := ["distance"]; chart_type := Some "line" |}
    ["distance"].
Proof.
  split; [reflexivity|]. split; [reflexivity|]. split; [reflexivity|].
  exists EmptyString. reflexivity.
Defined.

Lemma X1_witness :
  let s := start E_B [] tt in
  Str.truthy (Some ask) = true /\
  agents (final (handle_query E_B (Some ask) s)) = agents s /\
  shared_memory (final (handle_query E_B (Some ask) s)) = snd (pipeline E_B s ask).
Proof.
  split; [reflexivity|].
  exact (X1_turn_keeps_agents_and_pipeline_memory E_B ask (start E_B [] tt) eq_refl).
Defined.

Lemma X2_witness :
  let s := start E_down [] tt in
  Str.truthy (Some ask) = true /\
  exists rest,
    events (handle_query E_down (Some ask) s)
    = ([st_chat_message user; st_markdown ask;
        st_status "Processing your query..."; call_process_query ask]
       ++ rest)%list /\
    forallb (fun ev => negb (is_pipeline_call ev)) rest = true.
Proof.
  split; [reflexivity|].
  exact (X2_one_pipeline_call E_down ask (start E_down [] tt) eq_refl).
Defined.

Lemma X3_witness :
  let s := start E_C [] tt in
  Str.truthy (Some ask) = true /\
  filter is_validation (events (handle_query E_C (Some ask) s))
  = [call_validate_chart_inputs runs "date" ["pace"]].
Proof.
  split; [reflexivity|].
  exact (X3_validator_called_on_directive_and_data E_C ask (start E_C [] tt) eq_refl).
Defined.

Lemma X4_witness :
  let s := start E_B [] tt in
  Str.truthy (Some ask) = true /\
  fst (pipeline E_B s ask) = Ret result_B /\
  filter is_build (events (handle_query E_B (Some ask) s))
  = [call_create_visualization
       (Frame.from_records (Frame.to_dict_records runs)) "date" ["distance"] "line"].
Proof.
  split; [reflexivity|]. split; [reflexivity|].
  exact (proj1 (X4_chart_built_from_validated_directive
                  E_B ask (start E_B [] tt) eq_refl)
               result_B runs _ _ eq_refl scenario_B_validated).
Defined.

Lemma X5_witness :
  let s := start E_B [] tt in
  Str.truthy (Some ask) = true /\
  fst (pipeline E_B s ask) = Ret result_B /\
  filter is_date_parse (events (handle_query E_B (Some ask) s))
  = [call_to_datetime [CInt 20240101; CInt 20240108]].
Proof.
  split; [reflexivity|]. split; [reflexivity|].
  exact (proj1 (X5_dates_parsed_for_validated_date_column
                  E_B ask (start E_B [] tt) eq_refl)
               result_B runs _ _ eq_refl scenario_B_validated).
Defined.

Lemma X6_witness :
  let s := session_B false in
  is_debug_mode E_B = false /\
  forallb (fun ev => negb (is_debug_event ev))
          (events (handle_query E_B (Some ask) s)) = true /\
  forallb (fun ev => negb (is_debug_event ev))
          (events (replay_history E_B s)) = true.
Proof.
  split; [reflexivity|].
  exact (X6_no_debug_output_outside_debug_mode
           E_B (Some ask) (session_B false) eq_refl).
Defined.

Lemma X7_witness :
  let s := start E_failed [] tt in
  Str.truthy (Some ask) = true /\
  filter is_status_code (events (handle_query E_failed (Some ask) s))
  = [status_code "SELECT * FROM activity"].
Proof.
  split; [reflexivity|].
  exact (X7_sql_text_shown_when_present E_failed ask (start E_failed [] tt) eq_refl).
Defined.

Lemma X8_witness :
  let s := start E_failed [] tt in
  Str.truthy (Some ask) = true /\
  filter is_status_update (events (handle_query E_failed (Some ask) s))
  = [status_update "Error executing query" errored].
Proof.
  split; [reflexivity|].
  exact (X8_status_closed_once E_failed ask (start E_failed [] tt) eq_refl).
Defined.

Lemma X10_witness :
  let m := DemoPlatform.message_stale in
  let s := DemoPlatform.session_stale in
  is_processing s = false /\
  role m = assistant /\
  validate_chart_inputs E_B (Frame.from_records (Frame.to_dict_records runs))
                        "date" ["pace"]
  = Ret (false, [], "No valid y columns") /\
  replay_message E_B m s =
  {| outcome := Ret tt; final := s;
     events := [st_chat_message assistant;
                st_markdown "Here are your runs over time.";
                call_validate_chart_inputs
                  (Frame.from_records (Frame.to_dict_records runs)) "date" ["pace"];
                st_warning "No valid y columns"] |}.
Proof.
  split; [reflexivity|]. split; [reflexivity|]. split; [reflexivity|].
  exact (X10_replay_warns_on_rejection
           E_B DemoPlatform.message_stale DemoPlatform.session_stale
           (Frame.to_dict_records runs)
           {| x_column := "date"; y_columns := ["pace"]; chart_type := Some "line" |}
           [] "No valid y columns" eq_refl eq_refl eq_refl eq_refl eq_refl).
Defined.

Lemma X11_witness :
  let s := DemoPlatform.session_B_no_display in
  is_processing s = false /\
  In message_B (chat_history s) /\
  replay_raises E_B_no_display message_B (Exception "display failed") /\
  outcome (replay_history E_B_no_display s) = Ret tt /\
  In (st_error "Error displaying visualization: display failed")
     (events (replay_history E_B_no_display s)).
Proof.
  assert (In message_B (chat_history DemoPlatform.session_B_no_display)) as Hin
      by (cbn; auto).
  assert (replay_raises E_B_no_display message_B (Exception "display failed")) as Hr.
  { exists (Frame.to_dict_records runs),
           (normalized {| x_column := "date"; y_columns := ["distance"];
                          chart_type := Some "line" |} ["distance"]).
    split; [reflexivity|]. split; [reflexivity|].
    right. exists ["distance"], EmptyString. split; [reflexivity|].
    right. eexists. split; reflexivity. }
  split; [reflexivity|]. split; [exact Hin|]. split; [exact Hr|].
  exact (X11_replay_shows_inline_error
           E_B_no_display message_B DemoPlatform.session_B_no_display
           (Exception "display failed") eq_refl Hin eq_refl Hr).
Defined.

Lemma X12_witness :
  let m := text_message user ask in
  (role m = user \/ chart_data m = None \/ chart_info m = None) /\
  replay_message E_B m (session_B false) =
  {| outcome := Ret tt; final := session_B false; events := bubble E_B m |}.
Proof.
  split; [left; reflexivity|].
  exact (X12_replay_of_plain_message E_B (text_message user ask) (session_B false)
                                     (or_introl eq_refl)).
Defined.

Lemma X13_witness :
  let s := start E_B [] tt in
  Str.truthy (Some ask) = true /\
  fst (pipeline E_B s ask) = Ret result_B /\
  In (call_validate_chart_inputs
        (Frame.from_records (Frame.to_dict_records runs)) "date" ["distance"])
     (events (replay_history E_B (final (handle_query E_B (Some ask) s)))).
Proof.
  split; [reflexivity|]. split; [reflexivity|].
  exact (X13_replay_revalidates_what_the_turn_stored
           E_B ask (start E_B [] tt) result_B runs _ _ eq_refl eq_refl
           scenario_B_validated).
Defined.

Lemma runs_well_formed : well_formed runs.
Proof.
  split; [|split; [discriminate | split; [discriminate|]]].
  - repeat constructor; cbn; intuition discriminate.
  - repeat constructor.
Defined.

Lemma X14_witness :
  well_formed runs /\ Frame.from_records (Frame.to_dict_records runs) = runs.
Proof.
  split; [exact runs_well_formed|].
  exact (X14_records_round_trip runs runs_well_formed).
Defined.

Lemma X15_witness :
  let s := start E_B [] tt in
  Str.truthy (Some ask) = true /\
  fst (pipeline E_B s ask) = Ret result_B /\
  well_formed runs /\
  filter is_build (events (handle_query E_B (Some ask) s))
  = [call_create_visualization runs "date" ["distance"] "line"].
Proof.
  split; [reflexivity|]. split; [reflexivity|]. split; [exact runs_well_formed|].
  exact (X15_chart_built_on_the_validated_table
           E_B ask (start E_B [] tt) result_B runs _ _ eq_refl eq_refl
           scenario_B_validated runs_well_formed).
Defined.


Lemma X16_witness :
  let P := DemoPlatform.P_ok E_B tt [] false in
  Str.truthy None = false /\
  create_interface E_B P None (of_session (session_B false)) =
  {| script_outcome := Ret tt;
     script_state := of_session (session_B false);
     script_events := (header E_B P
                       ++ map body (events (replay_history E_B (session_B false)))
                       ++ [st_chat_input])%list |}.
Proof.
  split; [reflexivity|].
  exact (X16_rerun_without_prompt_changes_nothing
           E_B (DemoPlatform.P_ok E_B tt [] false) None (session_B false) eq_refl).
Defined.

Lemma X17_witness :
  let P := DemoPlatform.P_ok E_B tt [] false in
  initialize_agents P (AgentMemory P) = Ret (tt, tt, tt) /\
  script_state (create_interface E_B P None fresh) =
  Build_SessionState E_B (Some false) (Some [welcome_message]) (Some [])
                     (Some (tt, tt, tt)).
Proof.
  split; [reflexivity|].
  exact (f_equal script_state
           (X17_first_run_initialises_the_session
              E_B (DemoPlatform.P_ok E_B tt [] false) (tt, tt, tt) eq_refl)).
Defined.

Lemma X18_witness :
  let P := DemoPlatform.P_down E_B [] in
  ss_agents (@fresh E_B) = None /\
  initialize_agents P (setdefault (ss_shared_memory (@fresh E_B)) (AgentMemory P))
  = Raise (Exception "no API key") /\
  script_outcome (create_interface E_B P (Some ask) fresh)
  = Raise (Exception "no API key") /\
  ss_agents (script_state (create_interface E_B P (Some ask) fresh)) = None.
Proof.
  pose proof (X18_failed_initialisation_propagates
                E_B (DemoPlatform.P_down E_B []) (Some ask) fresh
                (Exception "no API key") eq_refl eq_refl) as H.
  split; [reflexivity|]. split; [reflexivity|].
  split; [exact (f_equal script_outcome H)|].
  exact (f_equal (fun r => ss_agents (script_state r)) H).
Defined.



Lemma session_B_at_rest :
  at_rest (E := E_B) (tt, tt, tt) (of_session (session_B false)).
Proof.
  split; [reflexivity|]. split; [reflexivity|]. split; [discriminate|].
  eexists. reflexivity.
Defined.


End Scenarios.
